(** * Moving-average crossover monitor: indicators, backtest engine,
      configuration check and delta compressor

    A shallow embedding of [indicators.py], [backtest.py], [config.py],
    [compressor.py] and the start-up of [main.py], with the properties of
    the specification stated and proved over it.

    Numbers.  Python floats are embedded as exact rationals [Q]: the program
    read in exact arithmetic.  Equality of computed values is therefore
    [Qeq] ([==]).  A float that is not-a-number (pandas' marker for "not yet
    computable") is embedded as [None] in an [option Q].  Where the
    rounding of double precision decides a statement, the computation is
    embedded a second time over binary64 floats ([Indicators.Doubles]).
    Division of Python floats by zero raises [ZeroDivisionError]; division
    of numpy floats by zero gives inf or nan, which the rationals cannot
    hold: there the model stops with [NonFinite].

    Failure.  A Python call either returns a value or raises; this is the
    [result] type below, used through stdpp's monadic notation. *)

From Stdlib Require Import QArith ZArith List Lia Bool Floats Uint63.
From stdpp Require Import base option list gmap strings.

Local Open Scope Q_scope.

(** ** Exceptions and results *)

Inductive exn : Type :=
| TypeError
| KeyError
| IndexError
| ValueError
| ZeroDivisionError
| DataError
| NonFinite.

Inductive result (A : Type) : Type :=
| Ok (a : A)
| Raise (e : exn).

Arguments Ok {A} a.
Arguments Raise {A} e.

#[global] Instance result_ret : MRet result := fun A a => Ok a.
#[global] Instance result_bind : MBind result :=
  fun A B f m => match m with Ok a => f a | Raise e => Raise e end.

(** ** Float comparisons and division *)

Definition Qltb (x y : Q) : bool := negb (Qle_bool y x).

(** [a / b] on Python floats. *)
Definition pydiv (a b : Q) : result Q :=
  if Qeq_bool b 0 then Raise ZeroDivisionError else Ok (a / b).

(** [a / b] where an operand is a numpy float: a zero divisor gives inf or
    nan with a warning and the program goes on.  [NonFinite] is not an
    exception of the program: it marks that the model has no value to go on
    with. *)
Definition npdiv (a b : Q) : result Q :=
  if Qeq_bool b 0 then Raise NonFinite else Ok (a / b).

Definition Qsum (l : list Q) : Q := fold_right Qplus 0 l.

(** Arithmetic mean of a non-empty slice. *)
Definition mean (l : list Q) : Q := Qsum l / inject_Z (Z.of_nat (length l)).

(** [prices[lo .. lo+n-1]]. *)
Definition slice (l : list Q) (lo n : nat) : list Q := firstn n (skipn lo l).

(** ** indicators.py *)

Module Indicators.

(** A pandas Series of floats: [None] is NaN. *)
Definition series : Type := list (option Q).

Inductive Signal : Type := BUY | SELL.

(** *** pandas: [Series.rolling(window).mean()]

    The rolling mean is library code.  It is embedded by the sliding-window
    algorithm pandas runs: a running sum and a running count of observations;
    at index [i] the new value enters the window and, once more than [window]
    values have been seen, the value at index [i - window] leaves it.  A
    result is produced when the count reaches [min_periods], which defaults
    to [window], and is positive.  This is the loop read in exact
    arithmetic, where the compensation terms of pandas' summation are zero;
    [Doubles] below is the same loop in double precision. *)

Definition calc_mean (minp nobs : nat) (sum_x : Q) : option Q :=
  if (minp <=? nobs)%nat && (0 <? nobs)%nat
  then Some (sum_x / inject_Z (Z.of_nat nobs))
  else None.

Fixpoint roll_mean (values : list Q) (win i : nat) (sum_x : Q) (nobs : nat)
    (todo : list Q) : series :=
  match todo with
  | [] => []
  | v :: todo' =>
      let sum_a := sum_x + v in
      let nobs_a := S nobs in
      let sum_r := if (win <=? i)%nat then sum_a - nth (i - win) values 0 else sum_a in
      let nobs_r := if (win <=? i)%nat then pred nobs_a else nobs_a in
      calc_mean win nobs_r sum_r :: roll_mean values win (S i) sum_r nobs_r todo'
  end.

Definition rolling_mean (values : list Q) (win : nat) : series :=
  roll_mean values win 0 0 0 values.

(** *** The same computation in double precision

    pandas' [roll_mean] over binary64 floats, as [window/aggregations.pyx]
    has it: Kahan-compensated [add_mean] and [remove_mean], the count of
    negative values and of equal consecutive values used by [calc_mean],
    and for a fixed window the bounds [start[i] = max(0, i+1-window)],
    [end[i] = i+1].  NaN is the float [nan]. *)

Module Doubles.

Local Open Scope float_scope.

Record window : Type := {
  nobs : nat;
  sum_x : float;
  neg_ct : nat;
  compensation_add : float;
  compensation_remove : float;
  num_consecutive_same_value : nat;
  prev_value : float
}.

(** The set-up of a window whose first value is [first]. *)
Definition fresh (first : float) : window :=
  {| nobs := 0; sum_x := 0; neg_ct := 0; compensation_add := 0;
     compensation_remove := 0; num_consecutive_same_value := 0;
     prev_value := first |}.

Definition add_mean (val : float) (w : window) : window :=
  if PrimFloat.eqb val val then
    let y := val - compensation_add w in
    let t := sum_x w + y in
    {| nobs := S (nobs w);
       sum_x := t;
       neg_ct := if get_sign val then S (neg_ct w) else neg_ct w;
       compensation_add := t - sum_x w - y;
       compensation_remove := compensation_remove w;
       num_consecutive_same_value :=
         if PrimFloat.eqb val (prev_value w)
         then S (num_consecutive_same_value w) else 1%nat;
       prev_value := val |}
  else w.

Definition remove_mean (val : float) (w : window) : window :=
  if PrimFloat.eqb val val then
    let y := - val - compensation_remove w in
    let t := sum_x w + y in
    {| nobs := pred (nobs w);
       sum_x := t;
       neg_ct := if get_sign val then pred (neg_ct w) else neg_ct w;
       compensation_add := compensation_add w;
       compensation_remove := t - sum_x w - y;
       num_consecutive_same_value := num_consecutive_same_value w;
       prev_value := prev_value w |}
  else w.

Definition float_of_nat (n : nat) : float :=
  PrimFloat.of_uint63 (Uint63.of_Z (Z.of_nat n)).

Definition calc_mean (minp : nat) (w : window) : float :=
  if (minp <=? nobs w)%nat && (0 <? nobs w)%nat then
    let result := sum_x w / float_of_nat (nobs w) in
    if (nobs w <=? num_consecutive_same_value w)%nat then prev_value w
    else if (neg_ct w =? 0)%nat && PrimFloat.ltb result 0 then 0
    else if (neg_ct w =? nobs w)%nat && PrimFloat.ltb 0 result then 0
    else result
  else nan.

Fixpoint roll_mean (values : list float) (win i : nat) (w : window)
    (todo : list float) : list float :=
  match todo with
  | [] => []
  | _ :: todo' =>
      let s := (i + 1 - win)%nat in
      let e := S i in
      let w' :=
        if (i =? 0)%nat || (i <=? s)%nat then
          fold_left (fun a j => add_mean (nth j values 0) a)
            (seq s (e - s)) (fresh (nth s values 0))
        else
          let s0 := (i - win)%nat in
          let removed :=
            fold_left (fun a j => remove_mean (nth j values 0) a)
              (seq s0 (s - s0)) w in
          fold_left (fun a j => add_mean (nth j values 0) a)
            (seq i (e - i)) removed in
      calc_mean win w' :: roll_mean values win (S i) w' todo'
  end.

Definition rolling_mean (values : list float) (win : nat) : list float :=
  roll_mean values win 0 (fresh 0) values.

(** [calculate_moving_average(price_data, window)] on doubles. *)
Definition calculate_moving_average (price_data : option (list float)) (window : Z)
    : result (option (list float)) :=
  match price_data with
  | None => Ok None
  | Some prices =>
      if (Z.of_nat (length prices) <? window)%Z then Ok None
      else if (window <? 0)%Z then Raise ValueError
      else Ok (Some (rolling_mean prices (Z.to_nat window)))
  end.

(** The arithmetic mean of a slice, summed from the left in doubles. *)
Definition mean (l : list float) : float :=
  fold_left PrimFloat.add l 0 / float_of_nat (length l).

End Doubles.

(** *** The rolling mean of a series with missing values

    The same loop on a column that holds NaN: a missing value neither
    enters nor leaves the sum and the count. *)
Fixpoint roll_mean_na (values : series) (win i : nat) (sum_x : Q) (nobs : nat)
    (todo : series) : series :=
  match todo with
  | [] => []
  | v :: todo' =>
      let sum_a := match v with Some x => sum_x + x | None => sum_x end in
      let nobs_a := match v with Some _ => S nobs | None => nobs end in
      let leaving := if (win <=? i)%nat then nth (i - win) values None else None in
      let sum_r := match leaving with Some x => sum_a - x | None => sum_a end in
      let nobs_r := match leaving with Some _ => pred nobs_a | None => nobs_a end in
      calc_mean win nobs_r sum_r :: roll_mean_na values win (S i) sum_r nobs_r todo'
  end.

Definition rolling_mean_na (values : series) (win : nat) : series :=
  roll_mean_na values win 0 0 0 values.

(** [calculate_moving_average(price_data, window)].  [price_data] may be
    [None]; pandas refuses a negative window. *)
Definition calculate_moving_average (price_data : option (list Q)) (window : Z)
    : result (option series) :=
  match price_data with
  | None => Ok None
  | Some prices =>
      if (Z.of_nat (length prices) <? window)%Z then Ok None
      else if (window <? 0)%Z then Raise ValueError
      else Ok (Some (rolling_mean prices (Z.to_nat window)))
  end.

(** [s.iloc[-k]] for [k >= 1]. *)
Definition iloc_back (s : series) (k : nat) : result (option Q) :=
  if (length s <? k)%nat then Raise IndexError
  else match s !! (length s - k)%nat with
       | Some v => Ok v
       | None => Raise IndexError
       end.

(** The comparison of lines 98-118 on the four values read from the two
    series; [None] is NaN. *)
Definition crossover (short_previous long_previous short_current long_current : option Q)
    : option Signal :=
  match short_current, long_current with
  | Some sc, Some lc =>
      match short_previous, long_previous with
      | Some sp, Some lp =>
          if Qle_bool sp lp && Qltb lc sc then Some BUY
          else if Qle_bool lp sp && Qltb sc lc then Some SELL
          else None
      | _, _ => None
      end
  | _, _ => None
  end.

(** [detect_ma_crossover(price_data, short_window, long_window)]. *)
Definition detect_ma_crossover (price_data : option (list Q)) (short_window long_window : Z)
    : result (option Signal) :=
  match price_data with
  | None => Ok None
  | Some prices =>
      if (Z.of_nat (length prices) <? long_window)%Z then Ok None
      else
        short_ma ← calculate_moving_average price_data short_window;
        long_ma ← calculate_moving_average price_data long_window;
        match short_ma, long_ma with
        | Some short_ma, Some long_ma =>
            if (length short_ma <? 2)%nat || (length long_ma <? 2)%nat then Ok None
            else
              short_current ← iloc_back short_ma 1;
              long_current ← iloc_back long_ma 1;
              short_previous ← iloc_back short_ma 2;
              long_previous ← iloc_back long_ma 2;
              Ok (crossover short_previous long_previous short_current long_current)
        | _, _ => Ok None
        end
  end.

(** The dictionary returned by [get_latest_ma_values]. *)
Module MaValues.
Record t : Type := {
  short_ma : Q;
  long_ma : Q;
  current_price : Q
}.
End MaValues.

Section Rounding.

(** The builtin [round(x, 2)]. *)
Variable round2 : Q -> Q.

(** [get_latest_ma_values(price_data, short_window, long_window)]. *)
Definition get_latest_ma_values (price_data : option (list Q)) (short_window long_window : Z)
    : result (option MaValues.t) :=
  match price_data with
  | None => Ok None
  | Some prices =>
      if (Z.of_nat (length prices) <? long_window)%Z then Ok None
      else
        short_series ← calculate_moving_average price_data short_window;
        long_series ← calculate_moving_average price_data long_window;
        match short_series, long_series with
        | Some short_series, Some long_series =>
            short_value ← iloc_back short_series 1;
            long_value ← iloc_back long_series 1;
            match short_value, long_value with
            | Some short_value, Some long_value =>
                match last prices with
                | None => Raise IndexError
                | Some latest =>
                    Ok (Some {| MaValues.short_ma := round2 short_value;
                                MaValues.long_ma := round2 long_value;
                                MaValues.current_price := round2 latest |})
                end
            | _, _ => Ok None
            end
        | _, _ => Ok None
        end
  end.

End Rounding.

End Indicators.

(** ** compressor.py *)

Module Compressor.

(** The compressed dictionary; a field is [None] when its key is absent.
    Under a key that is present the dictionary holds a float, a list of
    floats, a length: dictionaries with other values under these keys are
    outside this model. *)
Record compressed : Type := {
  base_price : option Q;
  deltas : option (list Q);
  original_length : option nat
}.

(** [compress_market_data(price_data)]. *)
Definition compress_market_data (price_data : option (list Q)) : option compressed :=
  match price_data with
  | None => None
  | Some prices =>
      if (length prices =? 0)%nat then None
      else
        let base := nth 0 prices 0 in
        let ds := map (fun i => nth i prices 0 - nth (i - 1) prices 0)
                      (seq 1 (length prices - 1)) in
        Some {| base_price := Some base;
                deltas := Some ds;
                original_length := Some (length prices) |}
  end.

(** One turn of the reconstruction loop: [(current_price, prices)]. *)
Definition add_delta (acc : Q * list Q) (delta : Q) : Q * list Q :=
  let current_price := fst acc + delta in
  (current_price, snd acc ++ [current_price]).

(** [decompress_market_data(compressed_data)]. *)
Definition decompress_market_data (compressed_data : option compressed) : option (list Q) :=
  match compressed_data with
  | None => None
  | Some c =>
      match base_price c, deltas c with
      | Some base, Some ds => Some (snd (fold_left add_delta ds (base, [base])))
      | _, _ => None
      end
  end.

(** [calculate_compression_ratio(original_data, compressed_data)]. *)
Definition calculate_compression_ratio
    (original_data : option (list Q)) (compressed_data : option compressed) : result Q :=
  match original_data, compressed_data with
  | Some original, Some c =>
      let original_count := length original in
      match deltas c with
      | None => Raise KeyError
      | Some ds =>
          let compressed_count := (1 + length ds)%nat in
          if (compressed_count =? 0)%nat then Ok 0
          else Ok (inject_Z (Z.of_nat original_count) / inject_Z (Z.of_nat compressed_count))
      end
  | _, _ => Ok 0
  end.

End Compressor.

(** ** config.py *)

Module Config.

(** The module-level settings that [validate_config] reads. *)
Record settings : Type := {
  FETCH_INTERVAL_MINUTES : Z;
  LOOKBACK_PERIOD_DAYS : Z;
  SHORT_MA_WINDOW : Z;
  LONG_MA_WINDOW : Z
}.

(** The values written in the file. *)
Definition shipped : settings :=
  {| FETCH_INTERVAL_MINUTES := 5;
     LOOKBACK_PERIOD_DAYS := 30;
     SHORT_MA_WINDOW := 5;
     LONG_MA_WINDOW := 20 |}.

(** [validate_config()]: the printed lines and the returned boolean. *)
Definition validate_config (c : settings) : list string * bool :=
  if (FETCH_INTERVAL_MINUTES c <=? 0)%Z then
    (["Error: FETCH_INTERVAL_MINUTES must be positive"%string], false)
  else if (LOOKBACK_PERIOD_DAYS c <=? 0)%Z then
    (["Error: LOOKBACK_PERIOD_DAYS must be positive"%string], false)
  else if (SHORT_MA_WINDOW c <=? 0)%Z || (LONG_MA_WINDOW c <=? 0)%Z then
    (["Error: MA windows must be positive"%string], false)
  else if (LONG_MA_WINDOW c <=? SHORT_MA_WINDOW c)%Z then
    (["Error: SHORT_MA_WINDOW must be less than LONG_MA_WINDOW"%string], false)
  else ([], true).

End Config.

(** ** main.py: start-up of the live monitor *)

Module Main.

Inductive outcome : Type :=
| Returned (printed : list string)
| MonitoringLoop (printed : list string).

(** [initialize_bot()]; the banner lines and the leading marks of the two
    status lines are left out of the printed output. *)
Definition initialize_bot (c : Config.settings) : list string * bool :=
  let '(printed, valid) := Config.validate_config c in
  if negb valid
  then (printed ++ ["Configuration validation failed!"%string], false)
  else (printed ++ ["Bot initialized successfully!"%string], true).

(** [main()]: the monitoring loop, which does the fetching, is entered only
    after [initialize_bot] has returned [True]. *)
Definition main (c : Config.settings) : outcome :=
  let '(printed, ok) := initialize_bot c in
  if negb ok then Returned printed else MonitoringLoop printed.

(** [data_fetcher.validate_data(data)] on what [fetch_stock_data] returned:
    [None], or a series of closing prices. *)
Definition validate_data (data : option (list Q)) : bool :=
  match data with
  | None => false
  | Some prices => negb (length prices =? 0)%nat
  end.

(** What a cycle of the monitoring loop sends out: the call of
    [alert.send_discord_alert] with its signal and price, and the call of
    [alert.log_alert] that follows a delivered alert. *)
Inductive event : Type :=
| SendAlert (signal_type : Indicators.Signal) (current_price : Q)
            (ma_values : option Indicators.MaValues.t)
| LogAlert (signal_type : Indicators.Signal) (current_price : Q).

Definition signal_eqb (a b : option Indicators.Signal) : bool :=
  match a, b with
  | None, None => true
  | Some Indicators.BUY, Some Indicators.BUY => true
  | Some Indicators.SELL, Some Indicators.SELL => true
  | _, _ => false
  end.

Section Monitoring.

Variable c : Config.settings.
Variable round2 : Q -> Q.

(** Lines 176-205: what the cycle does with the signal it computed.
    [alert_sent] is what [send_discord_alert] answers if it is called. *)
Definition handle_signal (previous_signal current_signal : option Indicators.Signal)
    (latest : Q) (ma_values : option Indicators.MaValues.t) (alert_sent : bool)
    : option Indicators.Signal * list event :=
  match current_signal with
  | Some s =>
      if negb (signal_eqb current_signal previous_signal) then
        (current_signal,
         SendAlert s latest ma_values :: (if alert_sent then [LogAlert s latest] else []))
      else (previous_signal, [])
  | None =>
      if signal_eqb current_signal previous_signal then (previous_signal, [])
      else (None, [])
  end.

(** Lines 124-223: one turn of [while True], from the fetched data to the
    new [previous_signal] and the alerts sent.  An exception raised inside
    the [try] leaves [previous_signal] as it was. *)
Definition cycle (previous_signal : option Indicators.Signal)
    (price_data : option (list Q)) (alert_sent : bool)
    : option Indicators.Signal * list event :=
  if negb (validate_data price_data) then (previous_signal, [])
  else
    match price_data with
    | None => (previous_signal, [])
    | Some prices =>
        match last prices with
        | None => (previous_signal, [])
        | Some latest =>
            match Indicators.detect_ma_crossover price_data
                    (Config.SHORT_MA_WINDOW c) (Config.LONG_MA_WINDOW c) with
            | Raise _ => (previous_signal, [])
            | Ok current_signal =>
                match Indicators.get_latest_ma_values round2 price_data
                        (Config.SHORT_MA_WINDOW c) (Config.LONG_MA_WINDOW c) with
                | Raise _ => (previous_signal, [])
                | Ok ma_values =>
                    handle_signal previous_signal current_signal latest ma_values alert_sent
                end
            end
        end
    end.

(** [run_monitoring_loop()] over the first turns of its loop, one pair of
    fetched data and delivery answer per turn: the last [previous_signal]
    and everything sent. *)
Definition run_monitoring_loop (turns : list (option (list Q) * bool))
    : option Indicators.Signal * list event :=
  fold_left
    (fun (acc : option Indicators.Signal * list event) (turn : option (list Q) * bool) =>
       let '(previous_signal, sent) := acc in
       let '(previous_signal', out) := cycle previous_signal (fst turn) (snd turn) in
       (previous_signal', sent ++ out))
    turns (None, []).

End Monitoring.

End Main.

(** ** backtest.py *)

Module Backtest.
Import Indicators.

(** Python values that occur as call arguments and dictionary values. *)
Inductive pyval : Type :=
| VNone
| VInt (z : Z)
| VFloat (q : Q)
| VStr (s : string)
| VSeries (l : list Q).

(** A call [detect_ma_crossover(a1, ..., an)] with positional arguments,
    resolved against [from indicators import detect_ma_crossover]: the
    arguments are bound to the three parameters [price_data], [short_window],
    [long_window]; any other number of them is a [TypeError], and so is
    [len()] of a float. *)
Definition call_detect_ma_crossover (args : list pyval) : result (option Signal) :=
  match args with
  | [price_data; short_window; long_window] =>
      match price_data, short_window, long_window with
      | VNone, VInt s, VInt l => detect_ma_crossover None s l
      | VSeries p, VInt s, VInt l => detect_ma_crossover (Some p) s l
      | _, _, _ => Raise TypeError
      end
  | _ => Raise TypeError
  end.

Inductive position_kind : Type := LONG.

(** An entry of [self.trades]. *)
Module Trade.
Record t : Type := {
  entry_date : option Z;
  exit_date : Z;
  entry_price : Q;
  exit_price : Q;
  shares : Q;
  profit : Q;
  profit_pct : Q;
  position : option position_kind
}.
End Trade.

(** The trade lines written to the console: the BUY line, and the SELL line
    with its mark, date, price, P/L, percentage and whether it ends in
    the [CLOSE] suffix. *)
Inductive line : Type :=
| LineBuy (date : Z) (price shares : Q)
| LineSell (win : bool) (date : Z) (price profit profit_pct : Q) (close_suffix : bool).

(** A row of [df] after [dropna()]: index (date), close and both averages. *)
Record row : Type := {
  name : Z;
  Close : Q;
  Short_MA : Q;
  Long_MA : Q
}.

(** The object: [__init__] stores its arguments and two empty lists. *)
Record BacktestEngine : Type := {
  symbol : string;
  period_months : Z;
  initial_capital : Q;
  trades : list Trade.t;
  portfolio_value : list Q
}.

Definition __init__ (symbol : string) (period_months : Z) (initial_capital : Q)
    : BacktestEngine :=
  {| symbol := symbol; period_months := period_months;
     initial_capital := initial_capital; trades := []; portfolio_value := [] |}.

(** The local variables of [run_backtest] together with the two lists of
    [self] that the loop appends to, and the trade lines printed so far. *)
Record state : Type := {
  position : option position_kind;
  entry_price : Q;
  entry_date : option Z;
  shares : Q;
  cash : Q;
  self_trades : list Trade.t;
  self_portfolio_value : list Q;
  printed : list line
}.

(** [self] once the run has appended to its two lists. *)
Definition updated (self : BacktestEngine) (st : state) : BacktestEngine :=
  {| symbol := symbol self; period_months := period_months self;
     initial_capital := initial_capital self;
     trades := self_trades st;
     portfolio_value := self_portfolio_value st |}.

Definition initial_state (self : BacktestEngine) : state :=
  {| position := None; entry_price := 0; entry_date := None; shares := 0;
     cash := initial_capital self;
     self_trades := trades self;
     self_portfolio_value := portfolio_value self;
     printed := [] |}.

(** Lines 86-93: enter a long position. *)
Definition enter_long (st : state) (current_price : Q) (current_date : Z) : result state :=
  new_shares ← npdiv (cash st) current_price;
  Ok {| position := Some LONG; entry_price := current_price;
        entry_date := Some current_date; shares := new_shares; cash := 0;
        self_trades := self_trades st;
        self_portfolio_value := self_portfolio_value st;
        printed := printed st ++ [LineBuy current_date current_price new_shares] |}.

(** Lines 96-118: exit the long position on a SELL signal. *)
Definition exit_long (st : state) (current_price : Q) (current_date : Z) : result state :=
  let exit_price := current_price in
  let profit := (exit_price - entry_price st) * shares st in
  ratio ← npdiv (exit_price - entry_price st) (entry_price st);
  let profit_pct := ratio * 100 in
  Ok {| position := None; entry_price := entry_price st;
        entry_date := entry_date st; shares := 0;
        cash := shares st * exit_price;
        self_trades := self_trades st ++
          [{| Trade.entry_date := entry_date st; Trade.exit_date := current_date;
              Trade.entry_price := entry_price st; Trade.exit_price := exit_price;
              Trade.shares := shares st; Trade.profit := profit;
              Trade.profit_pct := profit_pct; Trade.position := position st |}];
        self_portfolio_value := self_portfolio_value st;
        printed := printed st ++
          [LineSell (Qltb 0 profit) current_date exit_price profit profit_pct false] |}.

(** Lines 129-151: close any open position at the end. *)
Definition close_open_position (st : state) (df : list row) : result state :=
  match position st with
  | Some LONG =>
      match last df with
      | None => Raise IndexError
      | Some final_row =>
          let final_price := Close final_row in
          let final_date := name final_row in
          let profit := (final_price - entry_price st) * shares st in
          ratio ← npdiv (final_price - entry_price st) (entry_price st);
          let profit_pct := ratio * 100 in
          Ok {| position := None; entry_price := entry_price st;
                entry_date := entry_date st; shares := shares st;
                cash := shares st * final_price;
                self_trades := self_trades st ++
                  [{| Trade.entry_date := entry_date st; Trade.exit_date := final_date;
                      Trade.entry_price := entry_price st; Trade.exit_price := final_price;
                      Trade.shares := shares st; Trade.profit := profit;
                      Trade.profit_pct := profit_pct; Trade.position := position st |}];
                self_portfolio_value := self_portfolio_value st;
                printed := printed st ++
                  [LineSell (Qltb 0 profit) final_date final_price profit profit_pct true] |}
      end
  | None => Ok st
  end.

(** Lines 120-126: append the portfolio valuation of the step. *)
Definition track_portfolio (st : state) (current_price : Q) : state :=
  let portfolio_val :=
    match position st with
    | Some LONG => shares st * current_price
    | None => cash st
    end in
  {| position := position st; entry_price := entry_price st;
     entry_date := entry_date st; shares := shares st; cash := cash st;
     self_trades := self_trades st;
     self_portfolio_value := self_portfolio_value st ++ [portfolio_val];
     printed := printed st |}.

(** [_calculate_max_drawdown]: the loop over [self.portfolio_value]. *)
Fixpoint drawdown_loop (peak max_dd : Q) (values : list Q) : result Q :=
  match values with
  | [] => Ok max_dd
  | value :: rest =>
      let peak' := if Qltb peak value then value else peak in
      ratio ← pydiv (peak' - value) peak';
      let drawdown := ratio * 100 in
      let max_dd' := if Qltb max_dd drawdown then drawdown else max_dd in
      drawdown_loop peak' max_dd' rest
  end.

Definition _calculate_max_drawdown (portfolio_value : list Q) : result Q :=
  match portfolio_value with
  | [] => Ok 0
  | first :: _ => drawdown_loop first 0 portfolio_value
  end.

(** [max(...)] and [min(...)] over a non-empty sequence: the first extreme
    element met wins. *)
Definition py_max (x : Q) (xs : list Q) : Q :=
  fold_left (fun m v => if Qltb m v then v else m) xs x.

Definition py_min (x : Q) (xs : list Q) : Q :=
  fold_left (fun m v => if Qltb v m then v else m) xs x.

Definition count_if (p : Trade.t -> bool) (ts : list Trade.t) : Z :=
  Z.of_nat (length (List.filter p ts)).

(** [_calculate_metrics(final_cash)], reading [self.trades],
    [self.portfolio_value] and [self.initial_capital]. *)
Definition _calculate_metrics (self : BacktestEngine) (final_cash : Q)
    : result (gmap string pyval) :=
  match trades self with
  | [] =>
      Ok (<["total_trades" := VInt 0]>
          (<["winning_trades" := VInt 0]>
          (<["losing_trades" := VInt 0]>
          (<["win_rate" := VFloat 0]>
          (<["total_return" := VFloat 0]>
          (<["total_return_pct" := VFloat 0]>
          (<["avg_profit_per_trade" := VFloat 0]>
          (<["max_profit" := VFloat 0]>
          (<["max_loss" := VFloat 0]>
          (<["final_capital" := VFloat final_cash]> ∅))))))))))
  | t0 :: ts =>
      let total_trades := Z.of_nat (length (trades self)) in
      let winning_trades := count_if (fun t => Qltb 0 (Trade.profit t)) (trades self) in
      let losing_trades := count_if (fun t => Qle_bool (Trade.profit t) 0) (trades self) in
      let win_rate :=
        if (0 <? total_trades)%Z
        then inject_Z winning_trades / inject_Z total_trades * 100 else 0 in
      let total_profit := fold_left Qplus (map Trade.profit (trades self)) 0 in
      ratio ← pydiv (final_cash - initial_capital self) (initial_capital self);
      let total_return_pct := ratio * 100 in
      let avg_profit :=
        if (0 <? total_trades)%Z then total_profit / inject_Z total_trades else 0 in
      let max_profit := py_max (Trade.profit t0) (map Trade.profit ts) in
      let max_loss := py_min (Trade.profit t0) (map Trade.profit ts) in
      max_drawdown ← _calculate_max_drawdown (portfolio_value self);
      Ok (<["total_trades" := VInt total_trades]>
          (<["winning_trades" := VInt winning_trades]>
          (<["losing_trades" := VInt losing_trades]>
          (<["win_rate" := VFloat win_rate]>
          (<["total_return" := VFloat total_profit]>
          (<["total_return_pct" := VFloat total_return_pct]>
          (<["avg_profit_per_trade" := VFloat avg_profit]>
          (<["max_profit" := VFloat max_profit]>
          (<["max_loss" := VFloat max_loss]>
          (<["max_drawdown" := VFloat max_drawdown]>
          (<["final_capital" := VFloat final_cash]> ∅)))))))))))
  end.

(** [_display_results(results)]: the entries it formats, in the order it
    reads them; a missing key is a [KeyError]. *)
Definition displayed_keys : list string :=
  ["total_trades"; "winning_trades"; "losing_trades"; "win_rate";
   "final_capital"; "total_return"; "total_return_pct";
   "avg_profit_per_trade"; "max_profit"; "max_loss"; "max_drawdown";
   "total_return_pct"]%string.

Fixpoint read_keys (results : gmap string pyval) (keys : list string)
    : result (list pyval) :=
  match keys with
  | [] => Ok []
  | k :: ks =>
      match results !! k with
      | None => Raise KeyError
      | Some v => vs ← read_keys results ks; Ok (v :: vs)
      end
  end.

Definition _display_results (results : gmap string pyval) : result (list pyval) :=
  read_keys results displayed_keys.

(** A column of the frame: floats with NaN, or the object column that
    [df[key] = None] creates, every entry [None]. *)
Inductive column : Type :=
| Numbers (cells : series)
| Nones.

(** The columns of a frame, in order, by name. *)
Definition frame : Type := list (string * column).

Section Frames.

(** What [rolling(...).mean()] does with a column that holds no numbers:
    pandas before 2.0 leaves the column out of the result ([true]), pandas
    2 refuses it with [DataError] ([false]). *)
Variable drops_nuisance_columns : bool.

(** [df.rolling(window).mean()] on a frame: the rolling mean of every
    column. *)
Fixpoint rolling_frame (df : frame) (win : nat) : result frame :=
  match df with
  | [] => Ok []
  | (key, Numbers cells) :: rest =>
      rolled ← rolling_frame rest win;
      Ok ((key, Numbers (rolling_mean_na cells win)) :: rolled)
  | (key, Nones) :: rest =>
      if drops_nuisance_columns then rolling_frame rest win else Raise DataError
  end.

(** [calculate_moving_average(price_data, window)] when [price_data] is a
    frame of [rows] rows: [len] counts the rows, and the rolling mean is
    taken of the whole frame. *)
Definition calculate_moving_average_frame (rows : nat) (df : frame) (window : Z)
    : result (option frame) :=
  if (Z.of_nat rows <? window)%Z then Ok None
  else if (window <? 0)%Z then Raise ValueError
  else
    rolled ← rolling_frame df (Z.to_nat window);
    Ok (Some rolled).

End Frames.

(** [df[key] = value] for a key the frame does not have yet: [None] fills
    the new column with [None]; a frame is accepted only if it has exactly
    one column, which becomes the new column; otherwise pandas raises
    [ValueError]. *)
Definition setitem (df : frame) (key : string) (value : option frame) : result frame :=
  match value with
  | None => Ok (df ++ [(key, Nones)])
  | Some [(_, col)] => Ok (df ++ [(key, col)])
  | Some _ => Raise ValueError
  end.

(** The cells of the column [key] of a frame of [rows] rows. *)
Fixpoint cells_of (rows : nat) (df : frame) (key : string) : series :=
  match df with
  | [] => repeat None rows
  | (k, col) :: rest =>
      if String.eqb k key then
        match col with
        | Numbers cells => cells
        | Nones => repeat None rows
        end
      else cells_of rows rest key
  end.

(** [df.dropna()] on the frame with both columns added: the rows that miss
    no value. *)
Definition dropna (df : list (Z * Q)) (short_ma long_ma : series) : list row :=
  omap (fun r : (Z * Q) * (option Q * option Q) =>
          match r with
          | ((d, c), (Some s, Some l)) =>
              Some {| name := d; Close := c; Short_MA := s; Long_MA := l |}
          | _ => None
          end)
       (zip df (zip short_ma long_ma)).

Section Engine.

(** The callable that the name [detect_ma_crossover] is bound to at the call
    of line 74, the behaviour of the installed pandas on columns without
    numbers, and the two periods that [backtest.py] imports from [config]
    under names that [config.py] does not define. *)
Variable detect : list pyval -> result (option Signal).
Variable drops_nuisance_columns : bool.
Variables SHORT_MA_PERIOD LONG_MA_PERIOD : Z.

(** Lines 70-126: one turn of the loop. *)
Definition step (st : state) (previous_row current_row : row) : result state :=
  signal ← detect [VFloat (Short_MA previous_row); VFloat (Long_MA previous_row);
                   VFloat (Short_MA current_row); VFloat (Long_MA current_row)];
  let current_price := Close current_row in
  let current_date := name current_row in
  st' ← match signal, position st with
        | Some BUY, None => enter_long st current_price current_date
        | Some SELL, Some LONG => exit_long st current_price current_date
        | _, _ => Ok st
        end;
  Ok (track_portfolio st' current_price).

(** [for i in range(1, len(df))], with [previous_row = df.iloc[i-1]]. *)
Fixpoint loop_from (st : state) (previous_row : row) (rest : list row) : result state :=
  match rest with
  | [] => Ok st
  | current_row :: rest' =>
      st' ← step st previous_row current_row;
      loop_from st' current_row rest'
  end.

Definition loop (st : state) (df : list row) : result state :=
  match df with
  | [] => Ok st
  | first :: rest => loop_from st first rest
  end.

(** Lines 62-151: the simulation over the cleaned frame. *)
Definition simulate (self : BacktestEngine) (df : list row) : result state :=
  st ← loop (initial_state self) df;
  close_open_position st df.

(** Lines 55-60.  The fetched frame has the one column [Close];
    [calculate_moving_average] is given the frame itself, first with that
    one column, then with [Short_MA] added. *)
Definition prepare (df : list (Z * Q)) : result (list row) :=
  let rows := length df in
  let fetched : frame := [("Close"%string, Numbers (map Some (map snd df)))] in
  short_ma ← calculate_moving_average_frame drops_nuisance_columns rows fetched
             SHORT_MA_PERIOD;
  with_short ← setitem fetched "Short_MA" short_ma;
  long_ma ← calculate_moving_average_frame drops_nuisance_columns rows with_short
            LONG_MA_PERIOD;
  with_long ← setitem with_short "Long_MA" long_ma;
  Ok (dropna df (cells_of rows with_long "Short_MA") (cells_of rows with_long "Long_MA")).

(** Lines 55-151: the indicators, then the simulation. *)
Definition simulation_of (self : BacktestEngine) (df : list (Z * Q)) : result state :=
  rows ← prepare df;
  simulate self rows.

(** Lines 55-154: from the fetched frame to the metrics dictionary. *)
Definition results_of (self : BacktestEngine) (df : list (Z * Q))
    : result (gmap string pyval) :=
  st ← simulation_of self df;
  _calculate_metrics (updated self st) (cash st).

(** [run_backtest()].  [fetched] is what the call of line 48 returned:
    [None] when the fetch failed, otherwise a frame indexed by date with
    the column [Close] that the loop reads, given here by its rows.  The
    frame is an input: the [fetch_stock_data] of [data_fetcher.py] has
    other parameters than the call passes, and returns a series. *)
Definition run_backtest (self : BacktestEngine) (fetched : option (list (Z * Q)))
    : result (gmap string pyval) :=
  match fetched with
  | None | Some [] => Ok {[ "error"%string := VStr "Failed to fetch historical data" ]}
  | Some df =>
      results ← results_of self df;
      _ ← _display_results results;
      Ok results
  end.

End Engine.

End Backtest.

(** ** Notions used in the statements *)

(** What index [k] of the moving-average series of [values] with window
    [win] must hold. *)
Definition ma_entry (values : list Q) (win k : nat) (o : option Q) : Prop :=
  ((k + 1 < win)%nat /\ o = None) \/
  ((win <= k + 1)%nat /\
   exists v, o = Some v /\ v == mean (slice values (k + 1 - win) win)).

(** The running sum and count after the values before index [i] were seen. *)
Definition window_state (values : list Q) (win i : nat) (sum_x : Q) (nobs : nat) : Prop :=
  nobs = Nat.min i win /\ sum_x == Qsum (slice values (i - win) nobs).


(** The deltas stored for a list of prices. *)
Definition deltas_of (prices : list Q) : list Q :=
  map (fun i => nth i prices 0 - nth (i - 1) prices 0) (seq 1 (length prices - 1)).

(** Each value is at most the next one. *)
Fixpoint nondecreasing (l : list Q) : Prop :=
  match l with
  | [] => True
  | x :: rest =>
      match rest with
      | [] => True
      | y :: _ => x <= y /\ nondecreasing rest
      end
  end.

(** The prices rebuilt after [current_price] from a list of deltas. *)
Fixpoint rebuild (current_price : Q) (ds : list Q) : list Q :=
  match ds with
  | [] => []
  | d :: ds' => (current_price + d) :: rebuild (current_price + d) ds'
  end.

(** A later value of the list is lower than the one before it. *)
Fixpoint has_descent (l : list Q) : Prop :=
  match l with
  | [] => False
  | x :: rest =>
      match rest with
      | [] => False
      | y :: _ => y < x \/ has_descent rest
      end
  end.

(** The signal of the last [send_discord_alert] call among the events. *)
Fixpoint last_alert (events : list Main.event) : option Indicators.Signal :=
  match events with
  | [] => None
  | Main.SendAlert s _ _ :: rest =>
      match last_alert rest with
      | Some s' => Some s'
      | None => Some s
      end
  | Main.LogAlert _ _ :: rest => last_alert rest
  end.

(** The settings that [validate_config] is written to accept. *)
Definition valid_settings (c : Config.settings) : Prop :=
  (0 < Config.FETCH_INTERVAL_MINUTES c)%Z /\
  (0 < Config.LOOKBACK_PERIOD_DAYS c)%Z /\
  (0 < Config.SHORT_MA_WINDOW c)%Z /\
  (Config.SHORT_MA_WINDOW c < Config.LONG_MA_WINDOW c)%Z.

(** [peak] is the highest valuation among the first [i + 1] points of the
    curve. *)
Definition running_peak (curve : list Q) (i : nat) (peak : Q) : Prop :=
  In peak (take (S i) curve) /\ Forall (fun x => x <= peak) (take (S i) curve).

(** The percentage of line 220, in the order the code computes it. *)
Definition drawdown_pct (peak value : Q) : Q := (peak - value) / peak * 100.

(** ** Data for the examples *)

Definition example_trade (entry exit : Z) (entry_price exit_price shares : Q)
    : Backtest.Trade.t :=
  {| Backtest.Trade.entry_date := Some entry;
     Backtest.Trade.exit_date := exit;
     Backtest.Trade.entry_price := entry_price;
     Backtest.Trade.exit_price := exit_price;
     Backtest.Trade.shares := shares;
     Backtest.Trade.profit := (exit_price - entry_price) * shares;
     Backtest.Trade.profit_pct := (exit_price - entry_price) / entry_price * 100;
     Backtest.Trade.position := Some Backtest.LONG |}.

(** An engine after a run with one winning and one losing trade. *)
Definition two_trade_engine : Backtest.BacktestEngine :=
  {| Backtest.symbol := "AAPL";
     Backtest.period_months := 6;
     Backtest.initial_capital := 10000;
     Backtest.trades :=
       [example_trade 3 7 100 105 100; example_trade 9 12 105 (10470 # 100) 100];
     Backtest.portfolio_value := [10000; 10000; 10500; 10500; 10470] |}.

(** Settings with the two windows crossed. *)
Definition crossed_windows : Config.settings :=
  {| Config.FETCH_INTERVAL_MINUTES := 5;
     Config.LOOKBACK_PERIOD_DAYS := 30;
     Config.SHORT_MA_WINDOW := 20;
     Config.LONG_MA_WINDOW := 5 |}.

(** Settings with windows 3 and 5. *)
Definition crossing_settings : Config.settings :=
  {| Config.FETCH_INTERVAL_MINUTES := 5;
     Config.LOOKBACK_PERIOD_DAYS := 30;
     Config.SHORT_MA_WINDOW := 3;
     Config.LONG_MA_WINDOW := 5 |}.

(** A frame of daily closes, indexed by day number. *)
Definition daily (closes : list Q) : list (Z * Q) :=
  imap (fun i c => (Z.of_nat i, c)) closes.

(** Twenty flat days. *)
Definition flat_20 : list (Z * Q) := daily (repeat 100 20).

(** Twenty-two days, flat then rising: the short average of 5 moves above
    the long average of 20 on the day before last and stays there. *)
Definition rising_22 : list (Z * Q) := daily (repeat 100 20 ++ [105; 110]).

(** Three days: fewer than either period. *)
Definition three_days : list (Z * Q) := daily [100; 101; 102].

(** * Properties *)

(** ** Comparisons, sums and slices *)

Lemma Qltb_lt (x y : Q) : Qltb x y = true <-> x < y.
Proof.
  unfold Qltb. rewrite negb_true_iff. split.
  - intros H. apply Qnot_le_lt. intros Hle.
    apply Qle_bool_iff in Hle. congruence.
  - intros H. destruct (Qle_bool y x) eqn:E; [|reflexivity].
    apply Qle_bool_iff in E. exfalso. exact (Qlt_not_le _ _ H E).
Qed.

Lemma Qltb_ge (x y : Q) : Qltb x y = false <-> y <= x.
Proof.
  unfold Qltb. rewrite negb_false_iff. apply Qle_bool_iff.
Qed.

Lemma Qsum_app (a b : list Q) : Qsum (a ++ b) == Qsum a + Qsum b.
Proof.
  induction a as [|x a IH]; simpl.
  - ring.
  - unfold Qsum in *. simpl. rewrite IH. ring.
Qed.

Lemma slice_length (l : list Q) (lo n : nat) :
  (lo + n <= length l)%nat -> length (slice l lo n) = n.
Proof.
  intros H. unfold slice. rewrite length_take, length_drop. lia.
Qed.

Lemma slice_snoc (l : list Q) (lo n : nat) :
  (lo + n < length l)%nat ->
  slice l lo (S n) = slice l lo n ++ [nth (lo + n) l 0].
Proof.
  intros H. unfold slice.
  destruct (lookup_lt_is_Some_2 l (lo + n)%nat H) as [x Hx].
  rewrite (nth_lookup_Some _ _ _ _ Hx).
  apply take_S_r. rewrite lookup_drop. exact Hx.
Qed.

Lemma slice_cons (l : list Q) (lo n : nat) :
  (lo < length l)%nat ->
  slice l lo (S n) = nth lo l 0 :: slice l (S lo) n.
Proof.
  intros H. unfold slice.
  destruct (lookup_lt_is_Some_2 l lo H) as [x Hx].
  rewrite (nth_lookup_Some _ _ _ _ Hx).
  rewrite (drop_S _ _ _ Hx). reflexivity.
Qed.

Lemma Qsum_slide (l : list Q) (lo n : nat) :
  (0 < n)%nat -> (lo + n < length l)%nat ->
  Qsum (slice l (S lo) n) == Qsum (slice l lo n) + nth (lo + n) l 0 - nth lo l 0.
Proof.
  intros Hn Hlen. destruct n as [|m]; [lia|].
  rewrite (slice_snoc l (S lo) m) by lia.
  rewrite (slice_cons l lo m) by lia.
  replace (S lo + m)%nat with (lo + S m)%nat by lia.
  rewrite Qsum_app. unfold Qsum. simpl. ring.
Qed.

Lemma Qsum_grow (l : list Q) (n : nat) :
  (n < length l)%nat ->
  Qsum (slice l 0 (S n)) == Qsum (slice l 0 n) + nth n l 0.
Proof.
  intros Hlen. rewrite (slice_snoc l 0 n) by lia. simpl plus.
  rewrite Qsum_app. unfold Qsum. simpl. ring.
Qed.

(** ** The rolling mean *)

Section RollingMean.

Import Indicators.

Variable values : list Q.
Variable win : nat.
Hypothesis win_pos : (0 < win)%nat.

Lemma window_state_start : window_state values win 0 0 0.
Proof. split; [reflexivity | simpl; reflexivity]. Qed.

Lemma window_state_step (i : nat) (sum_x : Q) (nobs : nat) :
  (i < length values)%nat ->
  window_state values win i sum_x nobs ->
  window_state values win (S i)
    (if (win <=? i)%nat then sum_x + nth i values 0 - nth (i - win) values 0
     else sum_x + nth i values 0)
    (if (win <=? i)%nat then pred (S nobs) else S nobs).
Proof.
  intros Hi [Hn Hs]. destruct (Nat.leb_spec win i) as [Hle|Hgt].
  - assert (Hw : nobs = win) by lia. clear Hn. subst nobs.
    cbn [pred]. split; [lia|].
    replace (S i - win)%nat with (S (i - win)) by lia.
    rewrite (Qsum_slide values (i - win) win) by lia.
    replace (i - win + win)%nat with i by lia.
    rewrite Hs. reflexivity.
  - assert (Hw : nobs = i) by lia. clear Hn. subst nobs. split; [lia|].
    replace (S i - win)%nat with 0%nat by lia.
    rewrite Qsum_grow by lia. rewrite Hs.
    replace (i - win)%nat with 0%nat by lia. reflexivity.
Qed.

Lemma calc_mean_entry (i : nat) (sum_x : Q) (nobs : nat) :
  (i < length values)%nat ->
  window_state values win (S i) sum_x nobs ->
  ma_entry values win i (calc_mean win nobs sum_x).
Proof.
  intros Hi [Hn Hs]. unfold ma_entry, calc_mean.
  destruct (Nat.leb_spec win nobs) as [Hle|Hgt]; simpl.
  - assert (Hw : nobs = win) by lia.
    assert (Hk : (win <= i + 1)%nat) by lia. clear Hn. subst nobs.
    destruct (Nat.ltb_spec 0 win); [|lia].
    right. split; [lia|]. eexists. split; [reflexivity|].
    unfold mean. rewrite slice_length by lia.
    replace (i + 1 - win)%nat with (S i - win)%nat by lia.
    rewrite Hs. reflexivity.
  - left. split; [lia | reflexivity].
Qed.

Lemma roll_mean_length (i : nat) (sum_x : Q) (nobs : nat) (todo : list Q) :
  length (roll_mean values win i sum_x nobs todo) = length todo.
Proof.
  revert i sum_x nobs. induction todo as [|v todo IH]; intros; simpl.
  - reflexivity.
  - rewrite IH. reflexivity.
Qed.

Lemma roll_mean_entries (todo : list Q) :
  forall (done : list Q) (sum_x : Q) (nobs : nat),
    values = done ++ todo ->
    window_state values win (length done) sum_x nobs ->
    forall (j : nat) (o : option Q),
      roll_mean values win (length done) sum_x nobs todo !! j = Some o ->
      ma_entry values win (length done + j) o.
Proof.
  induction todo as [|v todo IH]; intros done sum_x nobs Hv Hw j o Hj.
  - simpl in Hj. discriminate.
  - assert (Hi : (length done < length values)%nat).
    { rewrite Hv, length_app. simpl. lia. }
    assert (Hnth : nth (length done) values 0 = v).
    { rewrite Hv. rewrite app_nth2 by lia.
      replace (length done - length done)%nat with 0%nat by lia. reflexivity. }
    pose proof (window_state_step _ _ _ Hi Hw) as Hstep.
    rewrite Hnth in Hstep.
    simpl in Hj. cbn [pred] in Hstep.
    assert (Hlen : length (done ++ [v]) = S (length done))
      by (rewrite length_app; simpl; lia).
    destruct (win <=? length done)%nat;
      (destruct j as [|j]; simpl in Hj;
       [ injection Hj as <-;
         replace (length done + 0)%nat with (length done) by lia;
         apply calc_mean_entry; [exact Hi | exact Hstep]
       | replace (length done + S j)%nat with (length (done ++ [v]) + j)%nat by lia;
         eapply (IH (done ++ [v]));
         [ rewrite <- app_assoc; exact Hv
         | rewrite Hlen; exact Hstep
         | rewrite Hlen; exact Hj ] ]).
Qed.

Lemma rolling_mean_entry (j : nat) (o : option Q) :
  rolling_mean values win !! j = Some o -> ma_entry values win j o.
Proof.
  intros H. apply (roll_mean_entries values [] 0 0%nat eq_refl window_state_start j o H).
Qed.

End RollingMean.

(** ** C3: the Moving Average Calculator *)



(** Scenario A of the specification. *)
Example scenario_A :
  Indicators.calculate_moving_average
    (Some [100; 102; 104; 106; 108; 110; 112]) 3
  = Ok (Some [None; None; Some (306 # 3); Some (312 # 3); Some (318 # 3);
              Some (324 # 3); Some (330 # 3)]).
Proof. vm_compute. reflexivity. Qed.

(** *** The calculator in double precision *)

Section DoublePrecision.

Import Indicators.






End DoublePrecision.




(** ** C9: insufficient data *)

(** C9.  With fewer prices than the window the calculator answers [None]
    (no series is computed); with fewer prices than [long_window] the
    detector answers [None]: neither a number nor an exception. *)
Theorem insufficient_data_is_undefined
    (prices : list Q) (W short_window long_window : Z) :
  ((Z.of_nat (length prices) < W)%Z ->
   Indicators.calculate_moving_average (Some prices) W = Ok None) /\
  ((Z.of_nat (length prices) < long_window)%Z ->
   Indicators.detect_ma_crossover (Some prices) short_window long_window = Ok None).
Proof.
  split; intros H.
  - unfold Indicators.calculate_moving_average.
    destruct (Z.ltb_spec (Z.of_nat (length prices)) W); [reflexivity | lia].
  - unfold Indicators.detect_ma_crossover.
    destruct (Z.ltb_spec (Z.of_nat (length prices)) long_window); [reflexivity | lia].
Qed.

Lemma insufficient_data_is_undefined_witness :
  Indicators.calculate_moving_average (Some [100; 101]) 3 = Ok None /\
  Indicators.detect_ma_crossover (Some [100; 101; 102; 103]) 2 5 = Ok None.
Proof.
  split.
  - apply (proj1 (insufficient_data_is_undefined [100; 101] 3 0 0)).
    simpl. lia.
  - apply (proj2 (insufficient_data_is_undefined [100; 101; 102; 103] 0 2 5)).
    simpl. lia.
Defined.

(** ** C2: the Crossover Detector *)

Section Crossover.

Import Indicators.

Lemma crossover_buy (sp lp sc lc : option Q) :
  crossover sp lp sc lc = Some BUY <->
  exists a b c d : Q,
    sp = Some a /\ lp = Some b /\ sc = Some c /\ lc = Some d /\ a <= b /\ d < c.
Proof.
  unfold crossover. split.
  - destruct sc as [c|], lc as [d|], sp as [a|], lp as [b|]; try discriminate.
    destruct (Qle_bool a b) eqn:E1; simpl.
    + destruct (Qltb d c) eqn:E2.
      * intros _. exists a, b, c, d.
        repeat split; [apply Qle_bool_iff; exact E1 | apply Qltb_lt; exact E2].
      * destruct (Qle_bool b a && Qltb c d); discriminate.
    + destruct (Qle_bool b a && Qltb c d); discriminate.
  - intros (a & b & c & d & -> & -> & -> & -> & Hab & Hdc).
    apply Qle_bool_iff in Hab. apply Qltb_lt in Hdc.
    rewrite Hab, Hdc. reflexivity.
Qed.

Lemma crossover_sell (sp lp sc lc : option Q) :
  crossover sp lp sc lc = Some SELL <->
  exists a b c d : Q,
    sp = Some a /\ lp = Some b /\ sc = Some c /\ lc = Some d /\ b <= a /\ c < d.
Proof.
  unfold crossover. split.
  - destruct sc as [c|], lc as [d|], sp as [a|], lp as [b|]; try discriminate.
    destruct (Qle_bool a b && Qltb d c); [discriminate|].
    destruct (Qle_bool b a) eqn:E1; simpl; [|discriminate].
    destruct (Qltb c d) eqn:E2; [|discriminate].
    intros _. exists a, b, c, d.
    repeat split; [apply Qle_bool_iff; exact E1 | apply Qltb_lt; exact E2].
  - intros (a & b & c & d & -> & -> & -> & -> & Hba & Hcd).
    assert (Hnot : Qle_bool a b && Qltb d c = false).
    { apply andb_false_iff. right. apply Qltb_ge. apply Qlt_le_weak. exact Hcd. }
    rewrite Hnot.
    apply Qle_bool_iff in Hba. apply Qltb_lt in Hcd.
    rewrite Hba, Hcd. reflexivity.
Qed.

Lemma crossover_nan (sp lp sc lc : option Q) :
  sp = None \/ lp = None \/ sc = None \/ lc = None ->
  crossover sp lp sc lc = None.
Proof.
  unfold crossover.
  destruct sc, lc, sp, lp; try reflexivity;
    intros [H | [H | [H | H]]]; discriminate.
Qed.

Lemma iloc_back_length (s : series) (k : nat) (o : option Q) :
  iloc_back s k = Ok o -> (k <= length s)%nat.
Proof.
  unfold iloc_back. destruct (Nat.ltb_spec (length s) k); [discriminate | lia].
Qed.

Lemma calculate_moving_average_enough (prices : list Q) (W : Z) (ma : series) :
  calculate_moving_average (Some prices) W = Ok (Some ma) ->
  (W <= Z.of_nat (length prices))%Z.
Proof.
  unfold calculate_moving_average.
  destruct (Z.ltb_spec (Z.of_nat (length prices)) W); [discriminate | lia].
Qed.

(** Past its guards the detector is the comparison of the last two points
    of the two series. *)
Lemma detect_ma_crossover_last_two
    (prices : list Q) (short_window long_window : Z)
    (short_ma long_ma : series) (sp lp sc lc : option Q) :
  calculate_moving_average (Some prices) short_window = Ok (Some short_ma) ->
  calculate_moving_average (Some prices) long_window = Ok (Some long_ma) ->
  iloc_back short_ma 2 = Ok sp -> iloc_back long_ma 2 = Ok lp ->
  iloc_back short_ma 1 = Ok sc -> iloc_back long_ma 1 = Ok lc ->
  detect_ma_crossover (Some prices) short_window long_window
  = Ok (crossover sp lp sc lc).
Proof.
  intros Hs Hl Hsp Hlp Hsc Hlc.
  pose proof (calculate_moving_average_enough _ _ _ Hl) as Hlen.
  pose proof (iloc_back_length _ _ _ Hsp) as H2s.
  pose proof (iloc_back_length _ _ _ Hlp) as H2l.
  unfold detect_ma_crossover.
  destruct (Z.ltb_spec (Z.of_nat (length prices)) long_window); [lia|].
  rewrite Hs, Hl. cbn [mbind result_bind].
  destruct (Nat.ltb_spec (length short_ma) 2); [lia|].
  destruct (Nat.ltb_spec (length long_ma) 2); [lia|].
  cbn [orb]. rewrite Hsc, Hlc, Hsp, Hlp. reflexivity.
Qed.

End Crossover.

(** C2.  On the last two points [s_prev, l_prev, s_cur, l_cur] of the short
    and long series the detector returns BUY iff [s_prev <= l_prev] and
    [s_cur > l_cur], SELL iff [s_prev >= l_prev] and [s_cur < l_cur], and
    no signal in every other case, in particular when one of the four is
    NaN; no input gives both. *)
Theorem detect_ma_crossover_classifies
    (prices : list Q) (short_window long_window : Z)
    (short_ma long_ma : Indicators.series) (sp lp sc lc : option Q) :
  Indicators.calculate_moving_average (Some prices) short_window = Ok (Some short_ma) ->
  Indicators.calculate_moving_average (Some prices) long_window = Ok (Some long_ma) ->
  Indicators.iloc_back short_ma 2 = Ok sp ->
  Indicators.iloc_back long_ma 2 = Ok lp ->
  Indicators.iloc_back short_ma 1 = Ok sc ->
  Indicators.iloc_back long_ma 1 = Ok lc ->
  let buy_condition :=
    exists a b c d : Q,
      sp = Some a /\ lp = Some b /\ sc = Some c /\ lc = Some d /\ a <= b /\ d < c in
  let sell_condition :=
    exists a b c d : Q,
      sp = Some a /\ lp = Some b /\ sc = Some c /\ lc = Some d /\ b <= a /\ c < d in
  exists signal : option Indicators.Signal,
    Indicators.detect_ma_crossover (Some prices) short_window long_window = Ok signal /\
    (signal = Some Indicators.BUY <-> buy_condition) /\
    (signal = Some Indicators.SELL <-> sell_condition) /\
    (signal = None <-> ~ buy_condition /\ ~ sell_condition) /\
    (sp = None \/ lp = None \/ sc = None \/ lc = None -> signal = None) /\
    ~ (buy_condition /\ sell_condition).
Proof.
  intros Hs Hl Hsp Hlp Hsc Hlc buy_condition sell_condition.
  exists (Indicators.crossover sp lp sc lc).
  pose proof (crossover_buy sp lp sc lc) as HB.
  pose proof (crossover_sell sp lp sc lc) as HS.
  split; [eapply detect_ma_crossover_last_two; eassumption|].
  split; [exact HB|]. split; [exact HS|]. split; [|split].
  - split.
    + intros Hn. split; intros Hc.
      * apply HB in Hc. congruence.
      * apply HS in Hc. congruence.
    + intros [HnB HnS].
      destruct (Indicators.crossover sp lp sc lc) as [[|]|] eqn:E.
      * exfalso. apply HnB, HB. reflexivity.
      * exfalso. apply HnS, HS. reflexivity.
      * reflexivity.
  - apply crossover_nan.
  - intros [Hb Hsl]. apply HB in Hb. apply HS in Hsl. congruence.
Qed.

Lemma detect_ma_crossover_classifies_witness :
  Indicators.detect_ma_crossover (Some [10; 10; 10; 10; 10; 11]) 3 5
  = Ok (Some Indicators.BUY).
Proof.
  destruct (detect_ma_crossover_classifies
              [10; 10; 10; 10; 10; 11] 3 5
              [None; None; Some (30 # 3); Some (30 # 3); Some (30 # 3); Some (31 # 3)]
              [None; None; None; None; Some (50 # 5); Some (51 # 5)]
              (Some (30 # 3)) (Some (50 # 5)) (Some (31 # 3)) (Some (51 # 5))
              eq_refl eq_refl eq_refl eq_refl eq_refl eq_refl)
    as [signal [Hrun [HB _]]].
  rewrite Hrun. f_equal. apply HB.
  exists (30 # 3), (50 # 5), (31 # 3), (51 # 5).
  repeat split; vm_compute; congruence.
Defined.

(** ** C10: the delta compressor *)

Section Compression.

Import Compressor.

Lemma deltas_of_cons (p q : Q) (rest : list Q) :
  deltas_of (p :: q :: rest) = (q - p) :: deltas_of (q :: rest).
Proof.
  unfold deltas_of. cbn [length Nat.sub]. rewrite Nat.sub_0_r.
  cbn [seq map nth Nat.sub]. f_equal.
  rewrite <- seq_shift, map_map.
  apply map_ext_in. intros i Hi. apply in_seq in Hi.
  destruct i as [|i]; [lia|].
  cbn [nth Nat.sub]. rewrite Nat.sub_0_r. reflexivity.
Qed.

Lemma rebuild_from_deltas (rest : list Q) :
  forall (p cur : Q) (acc : list Q),
    cur == p ->
    exists out : list Q,
      snd (fold_left add_delta (deltas_of (p :: rest)) (cur, acc)) = acc ++ out /\
      Forall2 Qeq out rest.
Proof.
  induction rest as [|q rest IH]; intros p cur acc Hcur.
  - exists []. split; [simpl; rewrite app_nil_r; reflexivity | constructor].
  - rewrite deltas_of_cons. cbn [fold_left].
    unfold add_delta at 2. cbn [fst snd].
    destruct (IH q (cur + (q - p)) (acc ++ [cur + (q - p)])) as [out [Hout Hall]].
    { rewrite Hcur. ring. }
    exists ((cur + (q - p)) :: out). split.
    + rewrite Hout, <- app_assoc. reflexivity.
    + constructor; [rewrite Hcur; ring | exact Hall].
Qed.

End Compression.

(** C10.  Decompressing the compression of a non-empty list of prices gives
    a list of the same length whose [i]-th element equals the [i]-th
    price. *)
Theorem decompress_compress_round_trip (prices : list Q) :
  prices <> [] ->
  exists (c : Compressor.compressed) (out : list Q),
    Compressor.compress_market_data (Some prices) = Some c /\
    Compressor.decompress_market_data (Some c) = Some out /\
    length out = length prices /\
    (forall (i : nat) (p : Q),
        prices !! i = Some p -> exists q : Q, out !! i = Some q /\ q == p).
Proof.
  intros Hne. destruct prices as [|p rest]; [congruence|].
  destruct (rebuild_from_deltas rest p p [p] (Qeq_refl p)) as [out [Hout Hall]].
  eexists. exists (p :: out). split; [reflexivity|].
  split; [|split].
  - unfold Compressor.decompress_market_data. cbn [Compressor.base_price Compressor.deltas].
    f_equal. exact Hout.
  - simpl. f_equal. exact (Forall2_length _ _ _ Hall).
  - assert (Hfull : Forall2 Qeq (p :: out) (p :: rest))
      by (constructor; [reflexivity | exact Hall]).
    intros i x Hx.
    destruct (Forall2_lookup_r _ _ _ _ _ Hfull Hx) as [q [Hq Hqx]].
    exists q. split; [exact Hq | exact Hqx].
Qed.

Lemma decompress_compress_round_trip_witness :
  exists (c : Compressor.compressed) (out : list Q),
    Compressor.compress_market_data (Some [10050 # 100; 10052 # 100; 10048 # 100]) = Some c /\
    Compressor.decompress_market_data (Some c) = Some out /\
    length out = 3%nat.
Proof.
  destruct (decompress_compress_round_trip [10050 # 100; 10052 # 100; 10048 # 100])
    as [c [out [H1 [H2 [H3 _]]]]].
  - discriminate.
  - exists c, out. split; [exact H1 | split; [exact H2 | exact H3]].
Defined.

(** ** C7: maximum drawdown *)

Section Drawdown.

Import Backtest.

Lemma pydiv_ok (a b : Q) : ~ b == 0 -> pydiv a b = Ok (a / b).
Proof.
  intros Hb. unfold pydiv.
  destruct (Qeq_bool b 0) eqn:E; [|reflexivity].
  apply Qeq_bool_iff in E. contradiction.
Qed.

Lemma pydiv_inv (a b q : Q) : pydiv a b = Ok q -> ~ b == 0 /\ q = a / b.
Proof.
  unfold pydiv. destruct (Qeq_bool b 0) eqn:E; [discriminate|].
  intros [= <-]. split; [|reflexivity].
  intros Hb. apply Qeq_bool_iff in Hb. congruence.
Qed.

Lemma drawdown_loop_lower_bound (values : list Q) :
  forall (peak max_dd d : Q),
    drawdown_loop peak max_dd values = Ok d -> max_dd <= d.
Proof.
  induction values as [|value rest IH]; intros peak max_dd d Hrun.
  - simpl in Hrun. injection Hrun as <-. apply Qle_refl.
  - simpl in Hrun.
    destruct (pydiv _ _) as [ratio|e] eqn:Hdiv; [|discriminate].
    cbn [mbind result_bind] in Hrun.
    apply IH in Hrun.
    destruct (Qltb max_dd (ratio * 100)) eqn:E; [|exact Hrun].
    apply Qltb_lt in E.
    apply Qle_trans with (ratio * 100); [apply Qlt_le_weak; exact E | exact Hrun].
Qed.

Lemma drawdown_loop_flat (values : list Q) :
  forall (peak max_dd d : Q),
    max_dd == 0 ->
    match values with [] => True | v :: _ => peak <= v end ->
    nondecreasing values ->
    drawdown_loop peak max_dd values = Ok d ->
    d == 0.
Proof.
  induction values as [|value rest IH]; intros peak max_dd d Hdd Hpeak Hmono Hrun.
  - simpl in Hrun. injection Hrun as <-. exact Hdd.
  - cbn [drawdown_loop] in Hrun.
    set (peak' := if Qltb peak value then value else peak) in *.
    assert (Hpv : peak' == value).
    { unfold peak'. destruct (Qltb peak value) eqn:E; [reflexivity|].
      apply Qltb_ge in E. apply Qle_antisym; assumption. }
    destruct (pydiv (peak' - value) peak') as [ratio|e] eqn:Hdiv; [|discriminate].
    cbn [mbind result_bind] in Hrun.
    apply pydiv_inv in Hdiv. destruct Hdiv as [Hnz ->].
    assert (Hzero : (peak' - value) / peak' * 100 == 0).
    { assert (Hn : peak' - value == 0) by (rewrite Hpv; ring).
      unfold Qdiv. rewrite Hn. ring. }
    eapply IH; [| | | exact Hrun].
    + destruct (Qltb max_dd ((peak' - value) / peak' * 100)); assumption.
    + destruct rest as [|w rest']; [exact I|].
      destruct Hmono as [Hvw _]. rewrite Hpv. exact Hvw.
    + destruct rest as [|w rest']; [exact I|]. destruct Hmono as [_ Hm]. exact Hm.
Qed.

Lemma drawdown_loop_total (values : list Q) :
  forall (peak max_dd : Q),
    0 < peak ->
    Forall (fun v => 0 < v) values ->
    exists d : Q, drawdown_loop peak max_dd values = Ok d.
Proof.
  induction values as [|value rest IH]; intros peak max_dd Hpeak Hall.
  - exists max_dd. reflexivity.
  - apply Forall_cons_1 in Hall. destruct Hall as [Hv Hrest].
    cbn [drawdown_loop].
    set (peak' := if Qltb peak value then value else peak).
    assert (Hpos : 0 < peak') by (unfold peak'; destruct (Qltb peak value); assumption).
    rewrite pydiv_ok.
    + cbn [mbind result_bind]. apply IH; assumption.
    + intros Hz. rewrite Hz in Hpos. exact (Qlt_irrefl 0 Hpos).
Qed.

Lemma max_drawdown_total (portfolio_value : list Q) :
  Forall (fun v => 0 < v) portfolio_value ->
  exists d : Q, _calculate_max_drawdown portfolio_value = Ok d.
Proof.
  intros Hall. destruct portfolio_value as [|first rest].
  - exists 0. reflexivity.
  - apply drawdown_loop_total; [|exact Hall].
    apply Forall_cons_1 in Hall. tauto.
Qed.

End Drawdown.

(** C7.  The reported maximum drawdown is [>= 0]; it is [0] when the
    recorded equity curve is non-decreasing, and [0] for the empty curve.
    A drawdown is reported for every curve of positive valuations. *)
Theorem max_drawdown_nonnegative (portfolio_value : list Q) :
  Backtest._calculate_max_drawdown [] = Ok 0 /\
  (Forall (fun v => 0 < v) portfolio_value ->
   exists d : Q, Backtest._calculate_max_drawdown portfolio_value = Ok d) /\
  (forall d : Q,
      Backtest._calculate_max_drawdown portfolio_value = Ok d ->
      0 <= d /\ (nondecreasing portfolio_value -> d == 0)).
Proof.
  split; [reflexivity|]. split.
  - apply max_drawdown_total.
  - intros d Hd. destruct portfolio_value as [|first rest].
    + injection Hd as <-. split; [apply Qle_refl | reflexivity].
    + unfold Backtest._calculate_max_drawdown in Hd. split.
      * apply (drawdown_loop_lower_bound _ _ _ _ Hd).
      * intros Hmono.
        apply (drawdown_loop_flat (first :: rest) first 0 d (Qeq_refl 0)
                 (Qle_refl first) Hmono Hd).
Qed.

Lemma max_drawdown_nonnegative_witness :
  exists d : Q,
    Backtest._calculate_max_drawdown [10000; 10000; 10250; 10400] = Ok d /\
    0 <= d /\ d == 0.
Proof.
  destruct (max_drawdown_nonnegative [10000; 10000; 10250; 10400])
    as [_ [Htotal Hpartial]].
  destruct Htotal as [d Hd].
  - repeat constructor.
  - exists d. destruct (Hpartial d Hd) as [Hge Hflat].
    split; [exact Hd|]. split; [exact Hge|].
    apply Hflat. simpl. repeat split; discriminate.
Defined.

Example drawdown_of_a_dip :
  Backtest._calculate_max_drawdown [100; 120; 90; 130] = Ok (3000 # 120).
Proof. vm_compute. reflexivity. Qed.

(** ** C8 and C5: the metrics dictionary *)

Section Metrics.

Import Backtest.

Lemma count_if_split (ts : list Trade.t) :
  (count_if (fun t => Qltb 0 (Trade.profit t)) ts
   + count_if (fun t => Qle_bool (Trade.profit t) 0) ts
   = Z.of_nat (length ts))%Z.
Proof.
  unfold count_if. induction ts as [|t ts IH]; [reflexivity|].
  cbn [List.filter]. unfold Qltb at 1.
  destruct (Qle_bool (Trade.profit t) 0); cbn [negb length]; lia.
Qed.

Lemma count_if_bounds (p : Trade.t -> bool) (ts : list Trade.t) :
  (0 <= count_if p ts <= Z.of_nat (length ts))%Z.
Proof.
  unfold count_if. pose proof (List.filter_length_le p ts). lia.
Qed.

Lemma percentage_bounds (w t : Z) :
  (0 <= w <= t)%Z -> (0 < t)%Z ->
  0 <= inject_Z w / inject_Z t * 100 /\ inject_Z w / inject_Z t * 100 <= 100.
Proof.
  intros [Hw Hwt] Ht.
  assert (HtQ : 0 < inject_Z t) by (change 0 with (inject_Z 0); rewrite <- Zlt_Qlt; exact Ht).
  assert (H0 : 0 <= inject_Z w / inject_Z t).
  { apply Qle_shift_div_l; [exact HtQ|]. rewrite Qmult_0_l.
    change 0 with (inject_Z 0). rewrite <- Zle_Qle. exact Hw. }
  assert (H1 : inject_Z w / inject_Z t <= 1).
  { apply Qle_shift_div_r; [exact HtQ|]. rewrite Qmult_1_l.
    rewrite <- Zle_Qle. exact Hwt. }
  split.
  - apply Qmult_le_0_compat; [exact H0 | discriminate].
  - apply Qle_trans with (1 * 100).
    + apply Qmult_le_compat_r; [exact H1 | discriminate].
    + rewrite Qmult_1_l. apply Qle_refl.
Qed.

Lemma metrics_total (self : BacktestEngine) (final_cash : Q) :
  ~ initial_capital self == 0 ->
  Forall (fun v => 0 < v) (portfolio_value self) ->
  exists r, _calculate_metrics self final_cash = Ok r.
Proof.
  intros Hcap Hall. unfold _calculate_metrics.
  destruct (trades self) as [|t0 ts]; [eexists; reflexivity|].
  rewrite (pydiv_ok _ _ Hcap). cbn [mbind result_bind].
  destruct (max_drawdown_total (portfolio_value self) Hall) as [d Hd].
  rewrite Hd. eexists. reflexivity.
Qed.

End Metrics.

(** C8.  Whatever the trade log, the returned metrics satisfy
    [winning_trades + losing_trades = total_trades], winning counting the
    trades with profit [> 0] and losing those with profit [<= 0], and
    [win_rate] lies in [[0, 100]].  Metrics are returned whenever the
    initial capital is not zero and the equity curve is positive. *)
Theorem metrics_counts_and_win_rate (self : Backtest.BacktestEngine) (final_cash : Q) :
  (~ Backtest.initial_capital self == 0 ->
   Forall (fun v => 0 < v) (Backtest.portfolio_value self) ->
   exists r, Backtest._calculate_metrics self final_cash = Ok r) /\
  (forall r : gmap string Backtest.pyval,
      Backtest._calculate_metrics self final_cash = Ok r ->
      exists (total winning losing : Z) (win_rate : Q),
        r !! "total_trades"%string = Some (Backtest.VInt total) /\
        r !! "winning_trades"%string = Some (Backtest.VInt winning) /\
        r !! "losing_trades"%string = Some (Backtest.VInt losing) /\
        r !! "win_rate"%string = Some (Backtest.VFloat win_rate) /\
        total = Z.of_nat (length (Backtest.trades self)) /\
        winning = Backtest.count_if (fun t => Qltb 0 (Backtest.Trade.profit t))
                    (Backtest.trades self) /\
        losing = Backtest.count_if (fun t => Qle_bool (Backtest.Trade.profit t) 0)
                   (Backtest.trades self) /\
        (winning + losing = total)%Z /\
        0 <= win_rate /\ win_rate <= 100).
Proof.
  split; [apply metrics_total|].
  intros r Hr. unfold Backtest._calculate_metrics in Hr.
  destruct (Backtest.trades self) as [|t0 ts] eqn:Ets.
  - injection Hr as <-. exists 0%Z, 0%Z, 0%Z, 0.
    repeat split; try reflexivity; discriminate.
  - destruct (pydiv _ _) as [ratio|e]; [|discriminate].
    cbn [mbind result_bind] in Hr.
    destruct (Backtest._calculate_max_drawdown _) as [dd|e]; [|discriminate].
    cbn [mbind result_bind] in Hr. injection Hr as <-.
    pose proof (count_if_split (t0 :: ts)) as Hsplit.
    pose proof (count_if_bounds (fun t => Qltb 0 (Backtest.Trade.profit t)) (t0 :: ts)) as Hw.
    pose proof (count_if_bounds (fun t => Qle_bool (Backtest.Trade.profit t) 0) (t0 :: ts)) as Hl.
    assert (Hpos : (0 < Z.of_nat (length (t0 :: ts)))%Z) by (simpl; lia).
    do 3 eexists. eexists.
    split; [reflexivity|]. split; [reflexivity|]. split; [reflexivity|].
    split; [reflexivity|]. split; [reflexivity|]. split; [reflexivity|].
    split; [reflexivity|]. split; [exact Hsplit|].
    destruct (Z.ltb_spec 0 (Z.of_nat (length (t0 :: ts)))) as [_|Hno]; [|lia].
    apply percentage_bounds; cbn [length] in *; lia.
Qed.

Lemma metrics_counts_and_win_rate_witness :
  exists (r : gmap string Backtest.pyval) (total winning losing : Z),
    Backtest._calculate_metrics two_trade_engine 10030 = Ok r /\
    r !! "total_trades"%string = Some (Backtest.VInt total) /\
    r !! "winning_trades"%string = Some (Backtest.VInt winning) /\
    r !! "losing_trades"%string = Some (Backtest.VInt losing) /\
    (winning + losing = total)%Z.
Proof.
  destruct (metrics_counts_and_win_rate two_trade_engine 10030) as [Htotal Hpartial].
  destruct Htotal as [r Hr].
  - discriminate.
  - repeat constructor.
  - destruct (Hpartial r Hr)
      as (total & winning & losing & win_rate & H1 & H2 & H3 & _ & _ & _ & _ & Hsum & _).
    exists r, total, winning, losing.
    split; [exact Hr|]. split; [exact H1|]. split; [exact H2|].
    split; [exact H3 | exact Hsum].
Defined.

(** C5.  With an empty trade log [_calculate_metrics] returns its ten
    zero-valued entries and [final_capital], but no ["max_drawdown"] entry,
    and [_display_results], which reads that entry, raises [KeyError]. *)
Theorem no_trade_metrics_lack_max_drawdown
    (self : Backtest.BacktestEngine) (final_cash : Q) :
  Backtest.trades self = [] ->
  exists r : gmap string Backtest.pyval,
    Backtest._calculate_metrics self final_cash = Ok r /\
    r !! "total_trades"%string = Some (Backtest.VInt 0) /\
    r !! "winning_trades"%string = Some (Backtest.VInt 0) /\
    r !! "losing_trades"%string = Some (Backtest.VInt 0) /\
    r !! "win_rate"%string = Some (Backtest.VFloat 0) /\
    r !! "total_return"%string = Some (Backtest.VFloat 0) /\
    r !! "total_return_pct"%string = Some (Backtest.VFloat 0) /\
    r !! "avg_profit_per_trade"%string = Some (Backtest.VFloat 0) /\
    r !! "max_profit"%string = Some (Backtest.VFloat 0) /\
    r !! "max_loss"%string = Some (Backtest.VFloat 0) /\
    r !! "final_capital"%string = Some (Backtest.VFloat final_cash) /\
    r !! "max_drawdown"%string = None /\
    Backtest._display_results r = Raise KeyError.
Proof.
  intros Hnone. unfold Backtest._calculate_metrics. rewrite Hnone.
  eexists. split; [reflexivity|].
  repeat split; reflexivity.
Qed.

Lemma no_trade_metrics_lack_max_drawdown_witness :
  exists r : gmap string Backtest.pyval,
    Backtest._calculate_metrics (Backtest.__init__ "AAPL" 6 10000) 10000 = Ok r /\
    r !! "max_drawdown"%string = None /\
    Backtest._display_results r = Raise KeyError.
Proof.
  destruct (no_trade_metrics_lack_max_drawdown (Backtest.__init__ "AAPL" 6 10000) 10000)
    as (r & Hr & _ & _ & _ & _ & _ & _ & _ & _ & _ & _ & Hdd & Hshow).
  - reflexivity.
  - exists r. split; [exact Hr | split; [exact Hdd | exact Hshow]].
Defined.

(** ** C1: [run_backtest] on a fetched frame *)

Section Run.

Import Backtest.

Variable detect : list pyval -> result (option Indicators.Signal).
Variable drops_nuisance_columns : bool.
Variables SHORT_MA_PERIOD LONG_MA_PERIOD : Z.

Lemma call_with_four_scalars (a b c d : Q) :
  call_detect_ma_crossover [VFloat a; VFloat b; VFloat c; VFloat d] = Raise TypeError.
Proof. reflexivity. Qed.

Lemma dropna_short_none (df : list (Z * Q)) :
  forall (n : nat) (long_ma : Indicators.series),
    dropna df (repeat None n) long_ma = [].
Proof.
  induction df as [|[d c] df IH]; intros n long_ma; [reflexivity|].
  destruct n as [|n]; [reflexivity|].
  destruct long_ma as [|l long_ma]; [reflexivity|].
  unfold dropna in *. cbn. apply IH.
Qed.

Lemma dropna_long_none (df : list (Z * Q)) :
  forall (short_ma : Indicators.series) (n : nat),
    dropna df short_ma (repeat None n) = [].
Proof.
  induction df as [|[d c] df IH]; intros short_ma n; [reflexivity|].
  destruct short_ma as [|s short_ma]; [reflexivity|].
  destruct n as [|n]; [reflexivity|].
  unfold dropna in *. cbn. destruct s; apply IH.
Qed.

(** With enough rows for both averages, line 57 assigns a frame of two
    columns to the one column [Long_MA]. *)
Lemma prepare_raises_ValueError (df : list (Z * Q)) :
  (SHORT_MA_PERIOD <= Z.of_nat (length df))%Z ->
  (LONG_MA_PERIOD <= Z.of_nat (length df))%Z ->
  prepare drops_nuisance_columns SHORT_MA_PERIOD LONG_MA_PERIOD df = Raise ValueError.
Proof.
  intros Hs Hl. unfold prepare, calculate_moving_average_frame.
  destruct (Z.ltb_spec (Z.of_nat (length df)) SHORT_MA_PERIOD); [lia|].
  destruct (Z.ltb_spec (Z.of_nat (length df)) LONG_MA_PERIOD); [lia|].
  destruct (SHORT_MA_PERIOD <? 0)%Z; [reflexivity|].
  cbn. destruct (LONG_MA_PERIOD <? 0)%Z; reflexivity.
Qed.

(** Whatever [prepare] returns has no row: an average that is missing is a
    column of [None], and two averages that exist stop at line 57. *)
Lemma prepare_leaves_no_row (df : list (Z * Q)) (rows : list row) :
  prepare drops_nuisance_columns SHORT_MA_PERIOD LONG_MA_PERIOD df = Ok rows ->
  rows = [] /\
  (Z.of_nat (length df) < SHORT_MA_PERIOD \/ Z.of_nat (length df) < LONG_MA_PERIOD)%Z.
Proof.
  intros H.
  destruct (Z.ltb_spec (Z.of_nat (length df)) SHORT_MA_PERIOD) as [Hs|Hs];
    destruct (Z.ltb_spec (Z.of_nat (length df)) LONG_MA_PERIOD) as [Hl|Hl].
  4: { rewrite prepare_raises_ValueError in H by assumption. discriminate. }
  all: split; [|lia].
  all: unfold prepare, calculate_moving_average_frame in H.
  all: apply Z.ltb_lt in Hs || apply Z.ltb_ge in Hs.
  all: apply Z.ltb_lt in Hl || apply Z.ltb_ge in Hl.
  all: rewrite Hs in H.
  - cbn in H. rewrite Hl in H. cbn in H. injection H as <-.
    apply dropna_short_none.
  - cbn in H. rewrite Hl in H.
    destruct (LONG_MA_PERIOD <? 0)%Z; [discriminate|].
    cbn in H. destruct drops_nuisance_columns; [|discriminate].
    cbn in H. injection H as <-. apply dropna_short_none.
  - destruct (SHORT_MA_PERIOD <? 0)%Z; [discriminate|].
    cbn in H. rewrite Hl in H. cbn in H. injection H as <-.
    apply dropna_long_none.
Qed.

(** Lines 55-60 raise nothing but the library's errors. *)
Lemma prepare_raises (df : list (Z * Q)) (e : exn) :
  prepare drops_nuisance_columns SHORT_MA_PERIOD LONG_MA_PERIOD df = Raise e ->
  e = ValueError \/ e = DataError.
Proof.
  unfold prepare, calculate_moving_average_frame. intros H.
  destruct (Z.of_nat (length df) <? SHORT_MA_PERIOD)%Z,
           (Z.of_nat (length df) <? LONG_MA_PERIOD)%Z,
           (SHORT_MA_PERIOD <? 0)%Z, (LONG_MA_PERIOD <? 0)%Z,
           drops_nuisance_columns;
    cbn in H; try discriminate; injection H as <-; auto.
Qed.

(** A run that gets through lines 55-151 has done nothing. *)
Lemma simulation_of_initial (self : BacktestEngine) (df : list (Z * Q)) (st : state) :
  simulation_of detect drops_nuisance_columns SHORT_MA_PERIOD LONG_MA_PERIOD self df
  = Ok st ->
  st = initial_state self /\
  (Z.of_nat (length df) < SHORT_MA_PERIOD \/ Z.of_nat (length df) < LONG_MA_PERIOD)%Z.
Proof.
  unfold simulation_of. intros H.
  destruct (prepare _ _ _ df) as [rows|e] eqn:Hprep; [|discriminate].
  apply prepare_leaves_no_row in Hprep. destruct Hprep as [-> Hshort].
  cbn in H. injection H as <-. split; [reflexivity | exact Hshort].
Qed.

Lemma simulation_of_raises (self : BacktestEngine) (df : list (Z * Q)) (e : exn) :
  simulation_of detect drops_nuisance_columns SHORT_MA_PERIOD LONG_MA_PERIOD self df
  = Raise e ->
  e = ValueError \/ e = DataError.
Proof.
  unfold simulation_of. intros H.
  destruct (prepare _ _ _ df) as [rows|e0] eqn:Hprep.
  - apply prepare_leaves_no_row in Hprep. destruct Hprep as [-> _]. discriminate.
  - cbn in H. injection H as <-. eapply prepare_raises. exact Hprep.
Qed.

(** On a frame shorter than both periods the run reaches the metrics. *)
Lemma simulation_of_short_frame (self : BacktestEngine) (df : list (Z * Q)) :
  (Z.of_nat (length df) < SHORT_MA_PERIOD)%Z ->
  (Z.of_nat (length df) < LONG_MA_PERIOD)%Z ->
  simulation_of detect drops_nuisance_columns SHORT_MA_PERIOD LONG_MA_PERIOD self df
  = Ok (initial_state self).
Proof.
  intros Hs Hl. unfold simulation_of, prepare, calculate_moving_average_frame.
  apply Z.ltb_lt in Hs, Hl. rewrite Hs. cbn. rewrite Hl. cbn.
  rewrite dropna_short_none. reflexivity.
Qed.

End Run.

(** C1.  On every non-empty fetched frame with enough rows for both
    averages, [run_backtest] raises [ValueError] at line 57, where the
    rolling mean of the frame, by then of two columns, is assigned to the
    one column [Long_MA]: the run returns no results and never reaches the
    call of line 74.  That call, of a function of three parameters with four
    positional arguments, is itself a [TypeError]. *)
Theorem run_backtest_raises_ValueError
    (detect : list Backtest.pyval -> result (option Indicators.Signal))
    (drops_nuisance_columns : bool)
    (SHORT_MA_PERIOD LONG_MA_PERIOD : Z) (self : Backtest.BacktestEngine)
    (df : list (Z * Q)) :
  df <> [] ->
  (SHORT_MA_PERIOD <= Z.of_nat (length df))%Z ->
  (LONG_MA_PERIOD <= Z.of_nat (length df))%Z ->
  Backtest.run_backtest detect drops_nuisance_columns
    SHORT_MA_PERIOD LONG_MA_PERIOD self (Some df) = Raise ValueError /\
  forall a b c d : Q,
    Backtest.call_detect_ma_crossover
      [Backtest.VFloat a; Backtest.VFloat b; Backtest.VFloat c; Backtest.VFloat d]
    = Raise TypeError.
Proof.
  intros Hne Hs Hl. split; [|intros a b c d; reflexivity].
  destruct df as [|p df']; [congruence|].
  unfold Backtest.run_backtest, Backtest.results_of, Backtest.simulation_of.
  rewrite prepare_raises_ValueError by assumption. reflexivity.
Qed.

Lemma run_backtest_raises_ValueError_witness :
  Backtest.run_backtest Backtest.call_detect_ma_crossover false 5 20
    (Backtest.__init__ "AAPL" 6 10000) (Some rising_22) = Raise ValueError.
Proof.
  apply (run_backtest_raises_ValueError Backtest.call_detect_ma_crossover false 5 20
           (Backtest.__init__ "AAPL" 6 10000) rising_22).
  - discriminate.
  - simpl. lia.
  - simpl. lia.
Defined.

(** ** C4: closing the open position at the end of the series *)

Section Closing.

Import Backtest.

(** Lines 129-151 next to lines 96-118: on the last row the closing block
    appends the trade a SELL exit appends there and leaves the same cash;
    the printed line alone tells them apart. *)
Lemma closing_block_accounting (st : state) (rows : list row) (final_row : row) :
  position st = Some LONG ->
  last rows = Some final_row ->
  ~ entry_price st == 0 ->
  exists st_close st_sell : state,
    close_open_position st rows = Ok st_close /\
    exit_long st (Close final_row) (name final_row) = Ok st_sell /\
    self_trades st_close = self_trades st_sell /\
    cash st_close = shares st * Close final_row /\
    cash st_sell = cash st_close /\
    printed st_close <> printed st_sell.
Proof.
  intros Hlong Hlast Hentry.
  unfold close_open_position, exit_long. rewrite Hlong, Hlast.
  unfold npdiv. destruct (Qeq_bool (entry_price st) 0) eqn:E.
  { apply Qeq_bool_iff in E. contradiction. }
  cbn [mbind result_bind]. do 2 eexists.
  split; [reflexivity|]. split; [reflexivity|].
  cbn [self_trades cash printed].
  split; [reflexivity|]. split; [reflexivity|]. split; [reflexivity|].
  intros Heq. apply app_inv_head in Heq. discriminate.
Qed.

End Closing.

Lemma metrics_final_capital (self : Backtest.BacktestEngine) (final_cash : Q)
    (r : gmap string Backtest.pyval) :
  Backtest._calculate_metrics self final_cash = Ok r ->
  r !! "final_capital"%string = Some (Backtest.VFloat final_cash).
Proof.
  unfold Backtest._calculate_metrics. intros H.
  destruct (Backtest.trades self) as [|t0 ts].
  - injection H as <-. reflexivity.
  - destruct (pydiv _ _) as [ratio|e]; [|discriminate].
    cbn [mbind result_bind] in H.
    destruct (Backtest._calculate_max_drawdown _) as [dd|e]; [|discriminate].
    cbn [mbind result_bind] in H. injection H as <-. reflexivity.
Qed.



(** The closes of [rising_22] end while the strategy is long: the Crossover
    Detector of [indicators.py] answers BUY on the first 21 closes and
    nothing on all 22, so that no SELL follows the BUY.  The backtest of
    the same closes stops at line 57. *)
Example rising_22_ends_long :
  Indicators.detect_ma_crossover (Some (take 21 (map snd rising_22))) 5 20
  = Ok (Some Indicators.BUY) /\
  Indicators.detect_ma_crossover (Some (map snd rising_22)) 5 20 = Ok None /\
  Backtest.simulation_of Backtest.call_detect_ma_crossover false 5 20
    (Backtest.__init__ "AAPL" 6 10000) rising_22 = Raise ValueError.
Proof. repeat split; vm_compute; reflexivity. Qed.

(** ** C6: rejection of invalid configurations *)

Lemma validate_config_bad_windows (c : Config.settings) :
  (Config.SHORT_MA_WINDOW c <= 0 \/ Config.LONG_MA_WINDOW c <= 0 \/
   Config.LONG_MA_WINDOW c <= Config.SHORT_MA_WINDOW c)%Z ->
  exists reason : string,
    Config.validate_config c = ([reason], false) /\
    In reason ["Error: FETCH_INTERVAL_MINUTES must be positive";
               "Error: LOOKBACK_PERIOD_DAYS must be positive";
               "Error: MA windows must be positive";
               "Error: SHORT_MA_WINDOW must be less than LONG_MA_WINDOW"]%string /\
    Main.main c = Main.Returned [reason; "Configuration validation failed!"%string].
Proof.
  intros Hbad. unfold Main.main, Main.initialize_bot, Config.validate_config.
  destruct (Z.leb_spec (Config.FETCH_INTERVAL_MINUTES c) 0).
  { eexists. split; [reflexivity|]. split; [simpl; tauto | reflexivity]. }
  destruct (Z.leb_spec (Config.LOOKBACK_PERIOD_DAYS c) 0).
  { eexists. split; [reflexivity|]. split; [simpl; tauto | reflexivity]. }
  destruct (Z.leb_spec (Config.SHORT_MA_WINDOW c) 0).
  { eexists. split; [reflexivity|]. split; [simpl; tauto | reflexivity]. }
  destruct (Z.leb_spec (Config.LONG_MA_WINDOW c) 0).
  { eexists. split; [reflexivity|]. split; [simpl; tauto | reflexivity]. }
  destruct (Z.leb_spec (Config.LONG_MA_WINDOW c) (Config.SHORT_MA_WINDOW c)).
  { eexists. split; [reflexivity|]. split; [simpl; tauto | reflexivity]. }
  lia.
Qed.

(** C6 (as amended).  A configuration with a non-positive moving-average
    window, or with a short window not below the long one, is refused by
    [validate_config] with one printed reason, and [main] then returns
    without entering the monitoring loop, hence before any fetch.  Initial
    capital is checked nowhere: whatever the capital and the two periods,
    [__init__] stores the capital as given, a run whose fetch fails returns
    the error of the fetch, and a run on a frame shorter than both periods
    goes through the simulation to the metrics, which report the capital
    unchanged as [final_capital] and no error. *)
Theorem validate_config_checks_windows_not_capital (c : Config.settings) :
  ((Config.SHORT_MA_WINDOW c <= 0 \/ Config.LONG_MA_WINDOW c <= 0 \/
    Config.LONG_MA_WINDOW c <= Config.SHORT_MA_WINDOW c)%Z ->
   exists reason : string,
     Config.validate_config c = ([reason], false) /\
     In reason ["Error: FETCH_INTERVAL_MINUTES must be positive";
                "Error: LOOKBACK_PERIOD_DAYS must be positive";
                "Error: MA windows must be positive";
                "Error: SHORT_MA_WINDOW must be less than LONG_MA_WINDOW"]%string /\
     Main.main c = Main.Returned [reason; "Configuration validation failed!"%string]) /\
  forall (detect : list Backtest.pyval -> result (option Indicators.Signal))
         (drops_nuisance_columns : bool) (SHORT_MA_PERIOD LONG_MA_PERIOD : Z)
         (symbol : string) (period_months : Z) (initial_capital : Q),
    let self := Backtest.__init__ symbol period_months initial_capital in
    Backtest.initial_capital self = initial_capital /\
    Backtest.run_backtest detect drops_nuisance_columns
      SHORT_MA_PERIOD LONG_MA_PERIOD self None
    = Ok {[ "error"%string := Backtest.VStr "Failed to fetch historical data" ]} /\
    forall df : list (Z * Q),
      (Z.of_nat (length df) < SHORT_MA_PERIOD)%Z ->
      (Z.of_nat (length df) < LONG_MA_PERIOD)%Z ->
      exists r : gmap string Backtest.pyval,
        Backtest.results_of detect drops_nuisance_columns
          SHORT_MA_PERIOD LONG_MA_PERIOD self df = Ok r /\
        r !! "error"%string = None /\
        r !! "final_capital"%string = Some (Backtest.VFloat initial_capital).
Proof.
  split; [apply validate_config_bad_windows|].
  intros detect drops S L symbol months capital self.
  split; [reflexivity|]. split; [reflexivity|].
  intros df Hs Hl. unfold Backtest.results_of.
  rewrite simulation_of_short_frame by assumption.
  eexists. split; [reflexivity|]. split; reflexivity.
Qed.

Lemma validate_config_checks_windows_not_capital_witness :
  Main.main crossed_windows
  = Main.Returned ["Error: SHORT_MA_WINDOW must be less than LONG_MA_WINDOW";
                   "Configuration validation failed!"]%string /\
  exists r : gmap string Backtest.pyval,
    Backtest.results_of Backtest.call_detect_ma_crossover false 5 20
      (Backtest.__init__ "AAPL" 6 0) three_days = Ok r /\
    r !! "final_capital"%string = Some (Backtest.VFloat 0).
Proof.
  destruct (validate_config_checks_windows_not_capital crossed_windows)
    as [Hwindows Hcapital].
  split.
  - destruct Hwindows as (reason & Hv & _ & Hmain).
    + right. right. simpl. lia.
    + rewrite Hmain. injection Hv as ->. reflexivity.
  - destruct (Hcapital Backtest.call_detect_ma_crossover false 5%Z 20%Z
                "AAPL"%string 6%Z 0) as (_ & _ & Hrun).
    destruct (Hrun three_days) as (r & Hr & _ & Hfinal).
    + simpl. lia.
    + simpl. lia.
    + exists r. split; [exact Hr | exact Hfinal].
Defined.

(** With the shipped settings [validate_config] accepts and [main] enters
    its loop, and nothing in them is a capital.  A backtest built with
    capital [0] fetches, and on three days of data with periods 5 and 20
    it goes through the simulation and computes its metrics; so does one
    built with capital [-1] and the two periods crossed.  Neither returns
    an error dictionary; both fail only afterwards, in
    [_display_results]. *)
Lemma nonpositive_capital_not_rejected :
  Config.validate_config Config.shipped = ([], true) /\
  Main.main Config.shipped = Main.MonitoringLoop ["Bot initialized successfully!"%string] /\
  Backtest.run_backtest Backtest.call_detect_ma_crossover false 5 20
    (Backtest.__init__ "AAPL" 6 0) None
  = Ok {[ "error"%string := Backtest.VStr "Failed to fetch historical data" ]} /\
  (exists r : gmap string Backtest.pyval,
      Backtest.results_of Backtest.call_detect_ma_crossover false 5 20
        (Backtest.__init__ "AAPL" 6 0) three_days = Ok r /\
      r !! "error"%string = None /\
      r !! "final_capital"%string = Some (Backtest.VFloat 0)) /\
  (exists r : gmap string Backtest.pyval,
      Backtest.results_of Backtest.call_detect_ma_crossover false 20 5
        (Backtest.__init__ "AAPL" 6 (-1)) three_days = Ok r /\
      r !! "error"%string = None /\
      r !! "final_capital"%string = Some (Backtest.VFloat (-1))) /\
  Backtest.run_backtest Backtest.call_detect_ma_crossover false 5 20
    (Backtest.__init__ "AAPL" 6 0) (Some three_days) = Raise KeyError.
Proof.
  split; [reflexivity|]. split; [reflexivity|]. split; [reflexivity|].
  split; [|split].
  - eexists. split; [vm_compute; reflexivity|]. split; reflexivity.
  - eexists. split; [vm_compute; reflexivity|]. split; reflexivity.
  - vm_compute. reflexivity.
Qed.

(** Twenty flat days have enough rows for both averages. *)
Example run_backtest_flat_20 :
  Backtest.run_backtest Backtest.call_detect_ma_crossover false 5 20
    (Backtest.__init__ "AAPL" 6 10000) (Some flat_20) = Raise ValueError.
Proof. vm_compute. reflexivity. Qed.

(** When the library refuses the column of [None] that line 56 left, the
    error is the library's. *)
Example run_backtest_short_then_long :
  Backtest.run_backtest Backtest.call_detect_ma_crossover false 5 2
    (Backtest.__init__ "AAPL" 6 10000) (Some three_days) = Raise DataError /\
  Backtest.run_backtest Backtest.call_detect_ma_crossover true 5 2
    (Backtest.__init__ "AAPL" 6 10000) (Some three_days) = Raise KeyError.
Proof. split; vm_compute; reflexivity. Qed.

Example run_backtest_no_data :
  Backtest.run_backtest Backtest.call_detect_ma_crossover false 5 20
    (Backtest.__init__ "AAPL" 6 10000) None
  = Ok {[ "error"%string := Backtest.VStr "Failed to fetch historical data" ]}.
Proof. reflexivity. Qed.

(** * Further properties of the code *)

(** ** indicators.py: averages and the price range *)

(** With a window of zero the count of observations stays at zero and no
    value is ever produced. *)
Lemma roll_mean_zero_window (todo : list Q) :
  forall (values : list Q) (i : nat) (sum_x : Q) (j : nat) (o : option Q),
    Indicators.roll_mean values 0 i sum_x 0 todo !! j = Some o -> o = None.
Proof.
  induction todo as [|p rest IH]; intros values i sum_x j o Hj.
  - discriminate.
  - destruct j as [|j]; simpl in Hj.
    + injection Hj as <-. reflexivity.
    + eapply IH. exact Hj.
Qed.

Section PriceRange.

Import Indicators.

Variables lo hi : Q.

Lemma inject_Z_succ (n : nat) :
  inject_Z (Z.of_nat (S n)) == inject_Z (Z.of_nat n) + 1.
Proof.
  rewrite Nat2Z.inj_succ. unfold Z.succ. rewrite inject_Z_plus. reflexivity.
Qed.

Lemma Qsum_within (l : list Q) :
  Forall (fun p => lo <= p /\ p <= hi) l ->
  inject_Z (Z.of_nat (length l)) * lo <= Qsum l /\
  Qsum l <= inject_Z (Z.of_nat (length l)) * hi.
Proof.
  induction 1 as [|p l [Hlo Hhi] _ [IHlo IHhi]].
  - simpl. split; rewrite Qmult_0_l; apply Qle_refl.
  - cbn [length]. rewrite inject_Z_succ.
    change (Qsum (p :: l)) with (p + Qsum l). split.
    + setoid_replace ((inject_Z (Z.of_nat (length l)) + 1) * lo)
        with (lo + inject_Z (Z.of_nat (length l)) * lo) using relation Qeq by ring.
      apply Qplus_le_compat; assumption.
    + setoid_replace ((inject_Z (Z.of_nat (length l)) + 1) * hi)
        with (hi + inject_Z (Z.of_nat (length l)) * hi) using relation Qeq by ring.
      apply Qplus_le_compat; assumption.
Qed.

Lemma mean_within (l : list Q) :
  (0 < length l)%nat ->
  Forall (fun p => lo <= p /\ p <= hi) l ->
  lo <= mean l /\ mean l <= hi.
Proof.
  intros Hlen Hall. destruct (Qsum_within l Hall) as [Hlo Hhi].
  assert (Hpos : 0 < inject_Z (Z.of_nat (length l))).
  { change 0 with (inject_Z 0). rewrite <- Zlt_Qlt. lia. }
  unfold mean. split.
  - apply Qle_shift_div_l; [exact Hpos|]. rewrite Qmult_comm. exact Hlo.
  - apply Qle_shift_div_r; [exact Hpos|]. rewrite Qmult_comm. exact Hhi.
Qed.

Lemma slice_within (l : list Q) (from n : nat) :
  Forall (fun p => lo <= p /\ p <= hi) l ->
  Forall (fun p => lo <= p /\ p <= hi) (slice l from n).
Proof.
  intros H. unfold slice. apply Forall_take, Forall_drop. exact H.
Qed.

Lemma rolling_mean_within (prices : list Q) (win i : nat) (v : Q) :
  Forall (fun p => lo <= p /\ p <= hi) prices ->
  rolling_mean prices win !! i = Some (Some v) ->
  lo <= v /\ v <= hi.
Proof.
  intros Hall Hi.
  destruct win as [|w].
  { apply roll_mean_zero_window in Hi. discriminate. }
  assert (Hwin : (0 < S w)%nat) by lia.
  assert (Hlt : (i < length prices)%nat).
  { apply lookup_lt_Some in Hi.
    unfold rolling_mean in Hi. rewrite roll_mean_length in Hi. exact Hi. }
  destruct (rolling_mean_entry prices (S w) Hwin i _ Hi)
    as [[_ Hnone]|[Hge [x [Hx Hmean]]]]; [discriminate|].
  injection Hx as <-.
  destruct (mean_within (slice prices (i + 1 - S w) (S w))) as [Hlo Hhi].
  - rewrite slice_length by lia. exact Hwin.
  - apply slice_within. exact Hall.
  - rewrite Hmean. split; assumption.
Qed.

End PriceRange.

(** ** indicators.py: a flat series gives no signal *)

Section FlatSeries.

Import Indicators.

Lemma iloc_back_lookup (s : series) (k : nat) :
  (k <= length s)%nat -> (0 < k)%nat ->
  exists o, iloc_back s k = Ok o /\ s !! (length s - k)%nat = Some o.
Proof.
  intros Hk Hpos. unfold iloc_back.
  destruct (Nat.ltb_spec (length s) k); [lia|].
  destruct (lookup_lt_is_Some_2 s (length s - k)%nat) as [o Ho]; [lia|].
  exists o. split; [|exact Ho].
  case_match; unfold series in *; [congruence|].
  match goal with H : _ !! _ = None |- _ => apply lookup_ge_None in H end. lia.
Qed.

Lemma crossover_level (level : Q) (sp lp sc lc : option Q) :
  (forall v, sc = Some v -> v == level) ->
  (forall v, lc = Some v -> v == level) ->
  crossover sp lp sc lc = None.
Proof.
  intros Hsc Hlc.
  destruct (crossover sp lp sc lc) as [[|]|] eqn:E; [| |reflexivity]; exfalso.
  - apply crossover_buy in E.
    destruct E as (a & b & x & y & _ & _ & -> & -> & _ & Hlt).
    rewrite (Hsc x eq_refl), (Hlc y eq_refl) in Hlt. exact (Qlt_irrefl _ Hlt).
  - apply crossover_sell in E.
    destruct E as (a & b & x & y & _ & _ & -> & -> & _ & Hlt).
    rewrite (Hsc x eq_refl), (Hlc y eq_refl) in Hlt. exact (Qlt_irrefl _ Hlt).
Qed.

Lemma rolling_mean_flat (level : Q) (n win i : nat) (v : Q) :
  rolling_mean (repeat level n) win !! i = Some (Some v) -> v == level.
Proof.
  intros Hi.
  destruct (rolling_mean_within level level (repeat level n) win i v) as [Hlo Hhi].
  - apply Forall_forall. intros p Hp. apply list_elem_of_In, repeat_spec in Hp. subst p.
    split; apply Qle_refl.
  - exact Hi.
  - apply Qle_antisym; assumption.
Qed.

End FlatSeries.

(** X2.  On a series that stays at one price, of any length, the detector
    returns no signal, whatever the two non-negative windows. *)
Theorem flat_series_gives_no_signal (level : Q) (n : nat) (short_window long_window : Z) :
  (0 <= short_window)%Z ->
  (0 <= long_window)%Z ->
  Indicators.detect_ma_crossover (Some (repeat level n)) short_window long_window = Ok None.
Proof.
  intros Hs Hl. unfold Indicators.detect_ma_crossover.
  destruct (Z.of_nat (length (repeat level n)) <? long_window)%Z eqn:Elong; [reflexivity|].
  unfold Indicators.calculate_moving_average. rewrite Elong.
  destruct (Z.ltb_spec long_window 0); [lia|].
  destruct (Z.of_nat (length (repeat level n)) <? short_window)%Z; [reflexivity|].
  destruct (Z.ltb_spec short_window 0); [lia|].
  cbn [mbind result_bind].
  set (short_ma := Indicators.rolling_mean (repeat level n) (Z.to_nat short_window)).
  set (long_ma := Indicators.rolling_mean (repeat level n) (Z.to_nat long_window)).
  destruct (Nat.ltb_spec (length short_ma) 2) as [|H2s]; [reflexivity|].
  destruct (Nat.ltb_spec (length long_ma) 2) as [|H2l]; [reflexivity|].
  cbn [orb].
  destruct (iloc_back_lookup short_ma 1) as (sc & -> & Hsc); [lia | lia |].
  destruct (iloc_back_lookup long_ma 1) as (lc & -> & Hlc); [lia | lia |].
  destruct (iloc_back_lookup short_ma 2) as (sp & -> & Hsp); [lia | lia |].
  destruct (iloc_back_lookup long_ma 2) as (lp & -> & Hlp); [lia | lia |].
  cbn [mbind result_bind]. f_equal.
  apply (crossover_level level).
  - intros v ->. eapply rolling_mean_flat. exact Hsc.
  - intros v ->. eapply rolling_mean_flat. exact Hlc.
Qed.

Lemma flat_series_gives_no_signal_witness :
  Indicators.detect_ma_crossover (Some (repeat 100 30)) 5 20 = Ok None.
Proof.
  apply (flat_series_gives_no_signal 100 30 5 20); lia.
Defined.

(** ** indicators.py: [get_latest_ma_values] *)

(** X4.  Whenever the detector returns a signal, [get_latest_ma_values] on the
    same arguments returns the values to announce with it. *)
Theorem signal_comes_with_ma_values
    (round2 : Q -> Q) (price_data : option (list Q)) (short_window long_window : Z)
    (signal : Indicators.Signal) :
  Indicators.detect_ma_crossover price_data short_window long_window = Ok (Some signal) ->
  exists values : Indicators.MaValues.t,
    Indicators.get_latest_ma_values round2 price_data short_window long_window
    = Ok (Some values).
Proof.
  intros Hdet. destruct price_data as [prices|]; [|discriminate].
  unfold Indicators.detect_ma_crossover in Hdet.
  unfold Indicators.get_latest_ma_values.
  destruct (Z.of_nat (length prices) <? long_window)%Z; [discriminate|].
  destruct (Indicators.calculate_moving_average (Some prices) short_window)
    as [[short_ma|]|e] eqn:Hshort; cbn [mbind result_bind] in *; try discriminate.
  2: { destruct (Indicators.calculate_moving_average (Some prices) long_window)
         as [?|?]; discriminate. }
  destruct (Indicators.calculate_moving_average (Some prices) long_window)
    as [[long_ma|]|e] eqn:Hlong; cbn [mbind result_bind] in *; try discriminate.
  destruct (Nat.ltb_spec (length short_ma) 2) as [|H2]; [discriminate|].
  destruct (Nat.ltb_spec (length long_ma) 2) as [|H2']; [discriminate|].
  cbn [orb] in Hdet.
  destruct (Indicators.iloc_back short_ma 1) as [sc|e]; [|discriminate].
  destruct (Indicators.iloc_back long_ma 1) as [lc|e]; [|discriminate].
  destruct (Indicators.iloc_back short_ma 2) as [sp|e]; [|discriminate].
  destruct (Indicators.iloc_back long_ma 2) as [lp|e]; [|discriminate].
  cbn [mbind result_bind] in *. injection Hdet as Hcross.
  assert (Hdefined : exists x y, sc = Some x /\ lc = Some y).
  { destruct signal.
    - apply crossover_buy in Hcross.
      destruct Hcross as (a & b & x & y & _ & _ & -> & -> & _). eauto.
    - apply crossover_sell in Hcross.
      destruct Hcross as (a & b & x & y & _ & _ & -> & -> & _). eauto. }
  destruct Hdefined as (x & y & -> & ->).
  destruct (last prices) as [latest|] eqn:Hlast; [eexists; reflexivity|].
  exfalso. apply last_None in Hlast. subst prices.
  unfold Indicators.calculate_moving_average in Hshort.
  destruct (_ <? _)%Z; [discriminate|].
  destruct (_ <? _)%Z; [discriminate|].
  injection Hshort as <-. simpl in H2. lia.
Qed.

Lemma signal_comes_with_ma_values_witness :
  exists values : Indicators.MaValues.t,
    Indicators.get_latest_ma_values (fun x => x) (Some [10; 10; 10; 10; 10; 11]) 3 5
    = Ok (Some values).
Proof.
  apply (signal_comes_with_ma_values (fun x => x) (Some [10; 10; 10; 10; 10; 11]) 3 5
           Indicators.BUY).
  vm_compute. reflexivity.
Defined.

(** ** compressor.py: the other round trip, the compression ratio *)

Section MoreCompression.

Import Compressor.

Lemma deltas_of_length (prices : list Q) :
  length (deltas_of prices) = (length prices - 1)%nat.
Proof. unfold deltas_of. rewrite length_map, length_seq. reflexivity. Qed.

Lemma fold_add_delta (ds : list Q) :
  forall (cur : Q) (acc : list Q),
    snd (fold_left add_delta ds (cur, acc)) = acc ++ rebuild cur ds.
Proof.
  induction ds as [|d ds IH]; intros cur acc.
  - simpl. rewrite app_nil_r. reflexivity.
  - cbn [fold_left rebuild]. unfold add_delta at 2. cbn [fst snd].
    rewrite IH, <- app_assoc. reflexivity.
Qed.

Lemma rebuild_length (ds : list Q) : forall cur, length (rebuild cur ds) = length ds.
Proof. induction ds as [|d ds IH]; intros cur; simpl; [|rewrite IH]; reflexivity. Qed.

Lemma compress_cons (p : Q) (rest : list Q) :
  compress_market_data (Some (p :: rest))
  = Some {| base_price := Some p;
            deltas := Some (deltas_of (p :: rest));
            original_length := Some (length (p :: rest)) |}.
Proof. reflexivity. Qed.

End MoreCompression.

(** X7.  Decompressing any dictionary that has both keys gives one price more
    than there are deltas, starting with the base, and compressing that
    list again returns the same base, the length of the list and as many
    deltas as there were. *)
Theorem compress_decompress_round_trip
    (base : Q) (ds : list Q) (n : option nat) :
  exists (out ds' : list Q),
    Compressor.decompress_market_data
      (Some {| Compressor.base_price := Some base;
               Compressor.deltas := Some ds;
               Compressor.original_length := n |}) = Some out /\
    length out = S (length ds) /\
    head out = Some base /\
    Compressor.compress_market_data (Some out)
    = Some {| Compressor.base_price := Some base;
              Compressor.deltas := Some ds';
              Compressor.original_length := Some (S (length ds)) |} /\
    length ds' = length ds.
Proof.
  exists (base :: rebuild base ds), (deltas_of (base :: rebuild base ds)).
  split.
  { unfold Compressor.decompress_market_data.
    cbn [Compressor.base_price Compressor.deltas].
    rewrite fold_add_delta. reflexivity. }
  split; [simpl; rewrite rebuild_length; reflexivity|].
  split; [reflexivity|]. split.
  - rewrite compress_cons. cbn [length]. rewrite rebuild_length. reflexivity.
  - rewrite deltas_of_length. cbn [length]. rewrite rebuild_length. lia.
Qed.

(** X9.  The ratio computed for the compression of a non-empty list is [1]:
    one base and [len - 1] deltas are as many values as there were
    prices. *)
Theorem compression_ratio_is_one (prices : list Q) :
  prices <> [] ->
  exists ratio : Q,
    Compressor.calculate_compression_ratio (Some prices)
      (Compressor.compress_market_data (Some prices)) = Ok ratio /\
    ratio == 1.
Proof.
  intros Hne. destruct prices as [|p rest]; [congruence|].
  eexists. split.
  - unfold Compressor.compress_market_data, Compressor.calculate_compression_ratio.
    cbn [length Nat.eqb Compressor.deltas]. reflexivity.
  - rewrite length_map, length_seq. cbn [length Nat.sub Nat.add].
    rewrite Nat.sub_0_r. apply Qmult_inv_r.
    change 0 with (inject_Z 0). rewrite inject_Z_injective. lia.
Qed.

Lemma compression_ratio_is_one_witness :
  exists ratio : Q,
    Compressor.calculate_compression_ratio (Some [100; 101; 99])
      (Compressor.compress_market_data (Some [100; 101; 99])) = Ok ratio /\
    ratio == 1.
Proof.
  apply (compression_ratio_is_one [100; 101; 99]). discriminate.
Defined.

(** ** config.py and main.py: what [validate_config] accepts *)

Lemma validate_config_cases (c : Config.settings) :
  (valid_settings c /\ Config.validate_config c = ([], true)) \/
  (~ valid_settings c /\ exists reason, Config.validate_config c = ([reason], false)).
Proof.
  unfold valid_settings, Config.validate_config.
  destruct (Z.leb_spec (Config.FETCH_INTERVAL_MINUTES c) 0);
    [right; split; [lia | eexists; reflexivity]|].
  destruct (Z.leb_spec (Config.LOOKBACK_PERIOD_DAYS c) 0);
    [right; split; [lia | eexists; reflexivity]|].
  destruct (Z.leb_spec (Config.SHORT_MA_WINDOW c) 0);
    [right; split; [lia | eexists; reflexivity]|].
  destruct (Z.leb_spec (Config.LONG_MA_WINDOW c) 0);
    [right; split; [lia | eexists; reflexivity]|].
  destruct (Z.leb_spec (Config.LONG_MA_WINDOW c) (Config.SHORT_MA_WINDOW c));
    [right; split; [lia | eexists; reflexivity]|].
  left. split; [lia | reflexivity].
Qed.

(** X10.  [validate_config] returns [True] exactly for a positive fetch interval,
    a positive lookback and windows with [0 < short < long]; it then prints
    nothing, and otherwise prints exactly one line; [main] enters the
    monitoring loop exactly in the first case. *)
Theorem validate_config_accepts_exactly_valid_settings (c : Config.settings) :
  (snd (Config.validate_config c) = true <-> valid_settings c) /\
  (valid_settings c -> Config.validate_config c = ([], true)) /\
  (~ valid_settings c ->
   exists reason, Config.validate_config c = ([reason], false)) /\
  (valid_settings c <-> exists printed, Main.main c = Main.MonitoringLoop printed).
Proof.
  unfold Main.main, Main.initialize_bot.
  destruct (validate_config_cases c) as [[Hv ->] | [Hn [reason ->]]]; cbn.
  - split; [tauto|]. split; [tauto|]. split; [tauto|].
    split; [intros _; eexists; reflexivity | tauto].
  - split; [split; [discriminate | tauto]|].
    split; [tauto|]. split; [intros _; eexists; reflexivity|].
    split; [tauto | intros [printed H]; discriminate].
Qed.

Lemma validate_config_accepts_exactly_valid_settings_witness :
  Config.validate_config Config.shipped = ([], true).
Proof.
  apply (proj1 (proj2 (validate_config_accepts_exactly_valid_settings Config.shipped))).
  unfold valid_settings. simpl. lia.
Defined.

(** ** indicators.py: no exception with non-negative windows *)

Section NoException.

Import Indicators.

Lemma calculate_moving_average_cases (prices : list Q) (W : Z) :
  (0 <= W)%Z ->
  calculate_moving_average (Some prices) W = Ok None \/
  exists ma, calculate_moving_average (Some prices) W = Ok (Some ma) /\
             length ma = length prices.
Proof.
  intros H0. unfold calculate_moving_average.
  destruct (Z.of_nat (length prices) <? W)%Z; [left; reflexivity|].
  destruct (Z.ltb_spec W 0); [lia|].
  right. eexists. split; [reflexivity | apply roll_mean_length].
Qed.

End NoException.

Lemma indicators_no_exception
    (round2 : Q -> Q) (price_data : option (list Q)) (short_window long_window : Z) :
  (0 <= short_window)%Z ->
  (0 <= long_window)%Z ->
  (exists signal,
      Indicators.detect_ma_crossover price_data short_window long_window = Ok signal) /\
  (price_data <> Some [] ->
   exists values,
     Indicators.get_latest_ma_values round2 price_data short_window long_window
     = Ok values).
Proof.
  intros Hs Hl. destruct price_data as [prices|].
  2: { split; [|intros _]; eexists; reflexivity. }
  unfold Indicators.detect_ma_crossover, Indicators.get_latest_ma_values.
  destruct (Z.of_nat (length prices) <? long_window)%Z.
  { split; [|intros _]; eexists; reflexivity. }
  destruct (calculate_moving_average_cases prices short_window Hs)
    as [-> | (short_ma & -> & Hslen)];
    destruct (calculate_moving_average_cases prices long_window Hl)
      as [-> | (long_ma & -> & Hllen)];
    cbn [mbind result_bind];
    try (split; [|intros _]; eexists; reflexivity).
  split.
  - destruct (Nat.ltb_spec (length short_ma) 2) as [|H2s]; [eexists; reflexivity|].
    destruct (Nat.ltb_spec (length long_ma) 2) as [|H2l]; [eexists; reflexivity|].
    cbn [orb].
    destruct (iloc_back_lookup short_ma 1) as (sc & -> & _); [lia | lia |].
    destruct (iloc_back_lookup long_ma 1) as (lc & -> & _); [lia | lia |].
    destruct (iloc_back_lookup short_ma 2) as (sp & -> & _); [lia | lia |].
    destruct (iloc_back_lookup long_ma 2) as (lp & -> & _); [lia | lia |].
    eexists. reflexivity.
  - intros Hne.
    assert (Hlen : (0 < length prices)%nat).
    { destruct prices; [congruence | simpl; lia]. }
    destruct (iloc_back_lookup short_ma 1) as ([sv|] & -> & _); [lia | lia | |];
      (destruct (iloc_back_lookup long_ma 1) as ([lv|] & -> & _); [lia | lia | |]);
      cbn [mbind result_bind]; try (eexists; reflexivity).
    destruct (last prices) as [latest|] eqn:Hlast; [eexists; reflexivity|].
    apply last_None in Hlast. congruence.
Qed.

(** X5.  With non-negative windows the detector never raises, and neither does
    [get_latest_ma_values] unless it is given an empty series. *)
Theorem indicators_do_not_raise
    (round2 : Q -> Q) (price_data : option (list Q)) (short_window long_window : Z) :
  (0 <= short_window)%Z ->
  (0 <= long_window)%Z ->
  (exists signal,
      Indicators.detect_ma_crossover price_data short_window long_window = Ok signal) /\
  (price_data <> Some [] ->
   exists values,
     Indicators.get_latest_ma_values round2 price_data short_window long_window
     = Ok values).
Proof. apply indicators_no_exception. Qed.

Lemma indicators_do_not_raise_witness :
  exists signal,
    Indicators.detect_ma_crossover (Some [100; 101; 102; 103]) 0 2 = Ok signal.
Proof.
  apply (proj1 (indicators_do_not_raise (fun x => x) (Some [100; 101; 102; 103]) 0 2
                  ltac:(lia) ltac:(lia))).
Defined.

(** A negative short window is refused by pandas once the length guard is
    passed. *)
Example negative_window_raises :
  Indicators.detect_ma_crossover (Some [100; 101; 102]) (-1) 2 = Raise ValueError.
Proof. reflexivity. Qed.

(** ** main.py: the monitoring loop *)

Section MonitoringFacts.

Import Main.

Variable c : Config.settings.
Variable round2 : Q -> Q.

Lemma signal_eqb_eq (a b : option Indicators.Signal) :
  signal_eqb a b = true <-> a = b.
Proof.
  destruct a as [[|]|], b as [[|]|]; simpl; split; congruence.
Qed.

Lemma handle_signal_tracks (previous_signal current_signal : option Indicators.Signal)
    (latest : Q) (ma_values : option Indicators.MaValues.t) (alert_sent : bool) :
  fst (handle_signal previous_signal current_signal latest ma_values alert_sent)
  = current_signal.
Proof.
  unfold handle_signal.
  destruct current_signal as [s|];
    destruct (signal_eqb _ previous_signal) eqn:E; cbn [negb fst]; try reflexivity.
  - apply signal_eqb_eq in E. congruence.
  - apply signal_eqb_eq in E. congruence.
Qed.

(** A turn either sends nothing, or sends an alert for the signal it then
    remembers. *)
Lemma cycle_outcome (previous_signal : option Indicators.Signal)
    (price_data : option (list Q)) (alert_sent : bool) :
  (snd (cycle c round2 previous_signal price_data alert_sent) = [] /\
   (fst (cycle c round2 previous_signal price_data alert_sent) = previous_signal \/
    fst (cycle c round2 previous_signal price_data alert_sent) = None)) \/
  (exists s,
      fst (cycle c round2 previous_signal price_data alert_sent) = Some s /\
      last_alert (snd (cycle c round2 previous_signal price_data alert_sent)) = Some s).
Proof.
  unfold cycle.
  destruct (validate_data price_data); cbn [negb]; [|left; split; [|left]; reflexivity].
  destruct price_data as [prices|]; [|left; split; [|left]; reflexivity].
  destruct (last prices) as [latest|]; [|left; split; [|left]; reflexivity].
  destruct (Indicators.detect_ma_crossover _ _ _) as [current_signal|e];
    [|left; split; [|left]; reflexivity].
  destruct (Indicators.get_latest_ma_values _ _ _ _) as [ma_values|e];
    [|left; split; [|left]; reflexivity].
  unfold handle_signal.
  destruct current_signal as [s|];
    destruct (signal_eqb _ previous_signal) eqn:E; cbn [negb fst snd].
  - left. split; [|left]; reflexivity.
  - right. exists s. split; [reflexivity|]. destruct alert_sent; reflexivity.
  - left. split; [|left]; reflexivity.
  - left. split; [|right]; reflexivity.
Qed.

Lemma last_alert_app (a b : list event) :
  last_alert (a ++ b)
  = match last_alert b with Some s => Some s | None => last_alert a end.
Proof.
  induction a as [|[s p m|s p] a IH]; cbn [app last_alert].
  - destruct (last_alert b); reflexivity.
  - rewrite IH. destruct (last_alert b); [reflexivity|].
    destruct (last_alert a); reflexivity.
  - exact IH.
Qed.

Lemma monitoring_invariant (turns : list (option (list Q) * bool)) :
  forall (previous_signal : option Indicators.Signal) (sent : list event),
    (forall s, previous_signal = Some s -> last_alert sent = Some s) ->
    forall s,
      fst (fold_left
             (fun (acc : option Indicators.Signal * list event)
                  (turn : option (list Q) * bool) =>
                let '(previous_signal, sent) := acc in
                let '(previous_signal', out) :=
                  cycle c round2 previous_signal (fst turn) (snd turn) in
                (previous_signal', sent ++ out))
             turns (previous_signal, sent)) = Some s ->
      last_alert
        (snd (fold_left
                (fun (acc : option Indicators.Signal * list event)
                     (turn : option (list Q) * bool) =>
                   let '(previous_signal, sent) := acc in
                   let '(previous_signal', out) :=
                     cycle c round2 previous_signal (fst turn) (snd turn) in
                   (previous_signal', sent ++ out))
                turns (previous_signal, sent))) = Some s.
Proof.
  induction turns as [|[price_data alert_sent] turns IH];
    intros previous_signal sent Hinv s.
  - cbn [fold_left fst snd]. apply Hinv.
  - cbn [fold_left fst snd].
    destruct (cycle c round2 previous_signal price_data alert_sent)
      as [previous_signal' out] eqn:Hcycle.
    apply IH. intros s' Hs'.
    pose proof (cycle_outcome previous_signal price_data alert_sent) as Hout.
    rewrite Hcycle in Hout. cbn [fst snd] in Hout.
    rewrite last_alert_app.
    destruct Hout as [[-> [-> | ->]] | (s0 & -> & ->)].
    + cbn [last_alert]. apply Hinv. exact Hs'.
    + discriminate.
    + exact Hs'.
Qed.

End MonitoringFacts.

(** X11.  With accepted settings and validated data, a turn of the loop takes no
    exception path: it remembers the signal the detector returned, and it
    calls [send_discord_alert] exactly when that signal is BUY or SELL and
    differs from the remembered one; [log_alert] follows only a delivered
    alert. *)
Theorem cycle_announces_new_signals
    (c : Config.settings) (round2 : Q -> Q)
    (previous_signal : option Indicators.Signal)
    (price_data : option (list Q)) (alert_sent : bool) :
  valid_settings c ->
  Main.validate_data price_data = true ->
  exists (prices : list Q) (latest : Q) (current_signal : option Indicators.Signal)
         (ma_values : option Indicators.MaValues.t),
    price_data = Some prices /\
    last prices = Some latest /\
    Indicators.detect_ma_crossover price_data
      (Config.SHORT_MA_WINDOW c) (Config.LONG_MA_WINDOW c) = Ok current_signal /\
    Indicators.get_latest_ma_values round2 price_data
      (Config.SHORT_MA_WINDOW c) (Config.LONG_MA_WINDOW c) = Ok ma_values /\
    Main.cycle c round2 previous_signal price_data alert_sent
    = (current_signal,
       match current_signal with
       | Some s =>
           if Main.signal_eqb current_signal previous_signal then []
           else Main.SendAlert s latest ma_values
                :: (if alert_sent then [Main.LogAlert s latest] else [])
       | None => []
       end).
Proof.
  intros (_ & _ & Hs & Hl) Hvalid.
  destruct price_data as [prices|]; [|discriminate].
  assert (Hne : Some prices <> Some []).
  { intros [= ->]. discriminate. }
  destruct (last prices) as [latest|] eqn:Hlast.
  2: { apply last_None in Hlast. congruence. }
  destruct (indicators_no_exception round2 (Some prices)
              (Config.SHORT_MA_WINDOW c) (Config.LONG_MA_WINDOW c))
    as [[current_signal Hdet] Hget]; [lia | lia |].
  destruct (Hget Hne) as [ma_values Hvalues].
  exists prices, latest, current_signal, ma_values.
  split; [reflexivity|]. split; [exact Hlast|].
  split; [exact Hdet|]. split; [exact Hvalues|].
  unfold Main.cycle. rewrite Hvalid, Hlast, Hdet, Hvalues. cbn [negb].
  unfold Main.handle_signal.
  destruct current_signal as [s|];
    destruct (Main.signal_eqb _ previous_signal) eqn:E; cbn [negb]; try reflexivity.
  - apply signal_eqb_eq in E. rewrite <- E. reflexivity.
  - apply signal_eqb_eq in E. rewrite <- E. reflexivity.
Qed.

Lemma cycle_announces_new_signals_witness :
  exists ma_values,
    Main.cycle crossing_settings (fun x => x) None (Some [10; 10; 10; 10; 10; 11]) false
    = (Some Indicators.BUY, [Main.SendAlert Indicators.BUY 11 ma_values]).
Proof.
  destruct (cycle_announces_new_signals crossing_settings (fun x => x) None
              (Some [10; 10; 10; 10; 10; 11]) false)
    as (prices & latest & current_signal & ma_values & Hp & Hlast & Hdet & _ & Hcycle).
  - unfold valid_settings. simpl. lia.
  - reflexivity.
  - injection Hp as <-. injection Hlast as <-.
    vm_compute in Hdet. injection Hdet as <-.
    exists ma_values. exact Hcycle.
Defined.

(** X12.  Fetching the same data again announces nothing, whether or not the
    first alert was delivered, and leaves the remembered signal as it is. *)
Theorem unchanged_data_is_not_announced_again
    (c : Config.settings) (round2 : Q -> Q)
    (previous_signal : option Indicators.Signal)
    (price_data : option (list Q)) (first_sent second_sent : bool) :
  let first := Main.cycle c round2 previous_signal price_data first_sent in
  Main.cycle c round2 (fst first) price_data second_sent = (fst first, []).
Proof.
  cbv zeta. unfold Main.cycle.
  destruct (Main.validate_data price_data); cbn [negb fst]; [|reflexivity].
  destruct price_data as [prices|]; [|reflexivity].
  destruct (last prices) as [latest|]; [|reflexivity].
  destruct (Indicators.detect_ma_crossover _ _ _) as [current_signal|e]; [|reflexivity].
  destruct (Indicators.get_latest_ma_values _ _ _ _) as [ma_values|e]; [|reflexivity].
  rewrite handle_signal_tracks.
  unfold Main.handle_signal.
  assert (Hrefl : Main.signal_eqb current_signal current_signal = true)
    by (apply signal_eqb_eq; reflexivity).
  destruct current_signal as [s|]; rewrite Hrefl; reflexivity.
Qed.

(** X13.  Whatever is fetched and whatever gets delivered, the signal remembered
    after any number of turns is the signal of the last alert sent. *)
Theorem remembered_signal_is_last_alert
    (c : Config.settings) (round2 : Q -> Q)
    (turns : list (option (list Q) * bool)) (s : Indicators.Signal) :
  fst (Main.run_monitoring_loop c round2 turns) = Some s ->
  last_alert (snd (Main.run_monitoring_loop c round2 turns)) = Some s.
Proof.
  unfold Main.run_monitoring_loop. apply monitoring_invariant.
  intros s' H. discriminate.
Qed.

Lemma remembered_signal_is_last_alert_witness :
  last_alert
    (snd (Main.run_monitoring_loop crossing_settings (fun x => x)
            [(Some [10; 10; 10; 10; 10; 11], false); (None, true)]))
  = Some Indicators.BUY.
Proof.
  apply (remembered_signal_is_last_alert crossing_settings (fun x => x)
           [(Some [10; 10; 10; 10; 10; 11], false); (None, true)] Indicators.BUY).
  vm_compute. reflexivity.
Defined.

(** ** backtest.py: [run_backtest] as it stands *)

(** X17.  On a fresh engine and any non-empty fetched frame, [run_backtest]
    raises, whatever the two periods and whatever the name
    [detect_ma_crossover] is bound to: [ValueError] or the library's
    [DataError] in the lines that add the two averages, or, when these
    leave no row, [KeyError] in [_display_results]. *)
Theorem run_backtest_raises_on_every_frame
    (detect : list Backtest.pyval -> result (option Indicators.Signal))
    (drops_nuisance_columns : bool)
    (SHORT_MA_PERIOD LONG_MA_PERIOD : Z) (self : Backtest.BacktestEngine)
    (df : list (Z * Q)) :
  Backtest.trades self = [] ->
  df <> [] ->
  exists e : exn,
    Backtest.run_backtest detect drops_nuisance_columns
      SHORT_MA_PERIOD LONG_MA_PERIOD self (Some df) = Raise e /\
    (e = ValueError \/ e = DataError \/ e = KeyError).
Proof.
  intros Hfresh Hne. destruct df as [|p df']; [congruence|].
  unfold Backtest.run_backtest, Backtest.results_of.
  destruct (Backtest.simulation_of _ _ _ _ self (p :: df')) as [st|e] eqn:Hsim.
  - apply simulation_of_initial in Hsim. destruct Hsim as [-> _].
    cbn [mbind result_bind].
    unfold Backtest._calculate_metrics. cbn. rewrite Hfresh.
    exists KeyError. split; [reflexivity | auto].
  - exists e. split; [reflexivity|].
    apply simulation_of_raises in Hsim. tauto.
Qed.

Lemma run_backtest_raises_on_every_frame_witness :
  exists e : exn,
    Backtest.run_backtest Backtest.call_detect_ma_crossover false 5 20
      (Backtest.__init__ "AAPL" 6 10000) (Some flat_20) = Raise e /\
    (e = ValueError \/ e = DataError \/ e = KeyError).
Proof.
  apply (run_backtest_raises_on_every_frame Backtest.call_detect_ma_crossover false 5 20
           (Backtest.__init__ "AAPL" 6 10000) flat_20).
  - reflexivity.
  - discriminate.
Defined.

(** X18.  With at least one trade in the log, the metrics dictionary has every
    entry that [_display_results] reads: the display shows its twelve
    values and does not raise. *)
Theorem display_succeeds_with_trades
    (self : Backtest.BacktestEngine) (final_cash : Q) (r : gmap string Backtest.pyval) :
  Backtest.trades self <> [] ->
  Backtest._calculate_metrics self final_cash = Ok r ->
  exists shown : list Backtest.pyval,
    Backtest._display_results r = Ok shown /\ length shown = 12%nat /\
    r !! "max_drawdown"%string <> None.
Proof.
  intros Hne Hr. unfold Backtest._calculate_metrics in Hr.
  destruct (Backtest.trades self) as [|t0 ts]; [congruence|].
  destruct (pydiv _ _) as [ratio|e]; [|discriminate].
  cbn [mbind result_bind] in Hr.
  destruct (Backtest._calculate_max_drawdown _) as [dd|e]; [|discriminate].
  cbn [mbind result_bind] in Hr. injection Hr as <-.
  eexists. split; [reflexivity|]. split; [reflexivity | discriminate].
Qed.

Lemma display_succeeds_with_trades_witness :
  exists (r : gmap string Backtest.pyval) (shown : list Backtest.pyval),
    Backtest._calculate_metrics two_trade_engine 10030 = Ok r /\
    Backtest._display_results r = Ok shown.
Proof.
  destruct (Backtest._calculate_metrics two_trade_engine 10030) as [r|e] eqn:Hr.
  - destruct (display_succeeds_with_trades two_trade_engine 10030 r
                ltac:(discriminate) Hr) as (shown & Hshown & _).
    exists r, shown. split; [reflexivity | exact Hshown].
  - vm_compute in Hr. discriminate.
Defined.

(** ** backtest.py: best and worst trade *)

Section Extremes.

Import Backtest.

Lemma py_max_fold (xs : list Q) :
  forall m0 : Q,
    let m := fold_left (fun m v => if Qltb m v then v else m) xs m0 in
    m0 <= m /\ Forall (fun v => v <= m) xs /\ (m = m0 \/ In m xs).
Proof.
  induction xs as [|v xs IH]; intros m0; cbn [fold_left].
  - split; [apply Qle_refl|]. split; [constructor | left; reflexivity].
  - set (m1 := if Qltb m0 v then v else m0).
    destruct (IH m1) as (Hm1 & Hall & Hin). cbv zeta in *.
    assert (H0 : m0 <= m1 /\ v <= m1 /\ (m1 = m0 \/ m1 = v)).
    { unfold m1. destruct (Qltb m0 v) eqn:E.
      - apply Qltb_lt in E. split; [apply Qlt_le_weak; exact E|].
        split; [apply Qle_refl | right; reflexivity].
      - apply Qltb_ge in E. split; [apply Qle_refl|].
        split; [exact E | left; reflexivity]. }
    destruct H0 as (H0 & Hv & Hm1eq).
    split; [eapply Qle_trans; eassumption|]. split.
    + constructor; [eapply Qle_trans; eassumption | exact Hall].
    + destruct Hin as [-> | Hin]; [|right; right; exact Hin].
      destruct Hm1eq as [-> | ->]; [left; reflexivity | right; left; reflexivity].
Qed.

Lemma py_min_fold (xs : list Q) :
  forall m0 : Q,
    let m := fold_left (fun m v => if Qltb v m then v else m) xs m0 in
    m <= m0 /\ Forall (fun v => m <= v) xs /\ (m = m0 \/ In m xs).
Proof.
  induction xs as [|v xs IH]; intros m0; cbn [fold_left].
  - split; [apply Qle_refl|]. split; [constructor | left; reflexivity].
  - set (m1 := if Qltb v m0 then v else m0).
    destruct (IH m1) as (Hm1 & Hall & Hin). cbv zeta in *.
    assert (H0 : m1 <= m0 /\ m1 <= v /\ (m1 = m0 \/ m1 = v)).
    { unfold m1. destruct (Qltb v m0) eqn:E.
      - apply Qltb_lt in E. split; [apply Qlt_le_weak; exact E|].
        split; [apply Qle_refl | right; reflexivity].
      - apply Qltb_ge in E. split; [apply Qle_refl|].
        split; [exact E | left; reflexivity]. }
    destruct H0 as (H0 & Hv & Hm1eq).
    split; [eapply Qle_trans; eassumption|]. split.
    + constructor; [eapply Qle_trans; eassumption | exact Hall].
    + destruct Hin as [-> | Hin]; [|right; right; exact Hin].
      destruct Hm1eq as [-> | ->]; [left; reflexivity | right; left; reflexivity].
Qed.

End Extremes.

(** X19.  With trades in the log, [max_profit] and [max_loss] are the profits of
    recorded trades, and every trade's profit lies between them. *)
Theorem extreme_profits_bound_the_trades
    (self : Backtest.BacktestEngine) (final_cash : Q) (r : gmap string Backtest.pyval) :
  Backtest.trades self <> [] ->
  Backtest._calculate_metrics self final_cash = Ok r ->
  exists (max_profit max_loss : Q),
    r !! "max_profit"%string = Some (Backtest.VFloat max_profit) /\
    r !! "max_loss"%string = Some (Backtest.VFloat max_loss) /\
    In max_profit (map Backtest.Trade.profit (Backtest.trades self)) /\
    In max_loss (map Backtest.Trade.profit (Backtest.trades self)) /\
    Forall (fun t => max_loss <= Backtest.Trade.profit t /\
                     Backtest.Trade.profit t <= max_profit) (Backtest.trades self).
Proof.
  intros Hne Hr. unfold Backtest._calculate_metrics in Hr.
  destruct (Backtest.trades self) as [|t0 ts]; [congruence|].
  destruct (pydiv _ _) as [ratio|e]; [|discriminate].
  cbn [mbind result_bind] in Hr.
  destruct (Backtest._calculate_max_drawdown _) as [dd|e]; [|discriminate].
  cbn [mbind result_bind] in Hr. injection Hr as <-.
  destruct (py_max_fold (map Backtest.Trade.profit ts) (Backtest.Trade.profit t0))
    as (Hmax0 & Hmaxall & Hmaxin).
  destruct (py_min_fold (map Backtest.Trade.profit ts) (Backtest.Trade.profit t0))
    as (Hmin0 & Hminall & Hminin).
  fold (Backtest.py_max (Backtest.Trade.profit t0) (map Backtest.Trade.profit ts))
    in Hmax0, Hmaxall, Hmaxin.
  fold (Backtest.py_min (Backtest.Trade.profit t0) (map Backtest.Trade.profit ts))
    in Hmin0, Hminall, Hminin.
  set (hi := Backtest.py_max _ _) in *. set (lo := Backtest.py_min _ _) in *.
  assert (Hall : Forall (fun p => lo <= p /\ p <= hi)
                   (map Backtest.Trade.profit (t0 :: ts))).
  { cbn [map]. constructor; [split; assumption|].
    apply Forall_forall. intros p Hp.
    rewrite Forall_forall in Hmaxall, Hminall. split; auto. }
  do 2 eexists.
  split; [reflexivity|]. split; [reflexivity|].
  split; [cbn [map]; destruct Hmaxin as [-> | H]; [left; reflexivity | right; exact H]|].
  split; [cbn [map]; destruct Hminin as [-> | H]; [left; reflexivity | right; exact H]|].
  apply Forall_map in Hall. exact Hall.
Qed.

Lemma extreme_profits_bound_the_trades_witness :
  exists (r : gmap string Backtest.pyval) (max_profit max_loss : Q),
    Backtest._calculate_metrics two_trade_engine 10030 = Ok r /\
    r !! "max_profit"%string = Some (Backtest.VFloat max_profit) /\
    r !! "max_loss"%string = Some (Backtest.VFloat max_loss) /\
    Forall (fun t => max_loss <= Backtest.Trade.profit t /\
                     Backtest.Trade.profit t <= max_profit)
      (Backtest.trades two_trade_engine).
Proof.
  destruct (Backtest._calculate_metrics two_trade_engine 10030) as [r|e] eqn:Hr.
  - destruct (extreme_profits_bound_the_trades two_trade_engine 10030 r
                ltac:(discriminate) Hr)
      as (max_profit & max_loss & H1 & H2 & _ & _ & Hall).
    exists r, max_profit, max_loss.
    split; [reflexivity|]. split; [exact H1|]. split; [exact H2 | exact Hall].
  - vm_compute in Hr. discriminate.
Defined.

(** ** backtest.py: the drawdown of a positive equity curve *)

Section PositiveCurve.

Import Backtest.

Lemma nondecreasing_or_descent (l : list Q) : nondecreasing l \/ has_descent l.
Proof.
  induction l as [|x rest IH]; [left; exact I|].
  destruct rest as [|y rest']; [left; exact I|].
  cbn [nondecreasing has_descent].
  destruct (Qlt_le_dec y x) as [Hlt|Hle]; [right; left; exact Hlt|].
  destruct IH as [Hmono|Hdesc]; [left; split; assumption | right; right; exact Hdesc].
Qed.

Lemma drawdown_ratio_bounds (peak value : Q) :
  0 < peak -> 0 < value ->
  (peak - value) / peak * 100 < 100 /\
  (value < peak -> 0 < (peak - value) / peak * 100).
Proof.
  intros Hp Hv. split.
  - apply Qlt_le_trans with (1 * 100); [|rewrite Qmult_1_l; apply Qle_refl].
    apply Qmult_lt_compat_r; [reflexivity|].
    apply Qlt_shift_div_r; [exact Hp|]. rewrite Qmult_1_l.
    apply Qplus_lt_l with value. ring_simplify.
    apply Qplus_lt_l with (- peak). ring_simplify. exact Hv.
  - intros Hlt.
    apply Qle_lt_trans with (0 * 100); [rewrite Qmult_0_l; apply Qle_refl|].
    apply Qmult_lt_compat_r; [reflexivity|].
    apply Qlt_shift_div_l; [exact Hp|]. rewrite Qmult_0_l.
    apply Qplus_lt_l with value. ring_simplify. exact Hlt.
Qed.

Lemma drawdown_loop_below_100 (values : list Q) :
  forall (peak max_dd d : Q),
    0 < peak -> Forall (fun v => 0 < v) values -> max_dd < 100 ->
    drawdown_loop peak max_dd values = Ok d -> d < 100.
Proof.
  induction values as [|value rest IH]; intros peak max_dd d Hpeak Hall Hdd Hrun.
  - injection Hrun as <-. exact Hdd.
  - apply Forall_cons_1 in Hall. destruct Hall as [Hv Hrest].
    cbn [drawdown_loop] in Hrun.
    set (peak' := if Qltb peak value then value else peak) in *.
    assert (Hpos : 0 < peak') by (unfold peak'; destruct (Qltb peak value); assumption).
    rewrite pydiv_ok in Hrun
      by (intros Hz; rewrite Hz in Hpos; exact (Qlt_irrefl 0 Hpos)).
    cbn [mbind result_bind] in Hrun.
    eapply IH; [exact Hpos | exact Hrest | | exact Hrun].
    destruct (Qltb max_dd _); [|exact Hdd].
    apply drawdown_ratio_bounds; assumption.
Qed.

Lemma drawdown_loop_descent (values : list Q) :
  forall (peak max_dd d : Q),
    0 < peak -> Forall (fun v => 0 < v) values -> 0 <= max_dd ->
    drawdown_loop peak max_dd values = Ok d ->
    match values with [] => False | v :: _ => v < peak end \/ has_descent values ->
    0 < d.
Proof.
  induction values as [|value rest IH]; intros peak max_dd d Hpeak Hall Hdd Hrun Hcase.
  - destruct Hcase as [[]|[]].
  - apply Forall_cons_1 in Hall. destruct Hall as [Hv Hrest].
    cbn [drawdown_loop] in Hrun.
    set (peak' := if Qltb peak value then value else peak) in *.
    assert (Hbounds : 0 < peak' /\ value <= peak' /\ (value < peak -> peak' = peak)).
    { unfold peak'. destruct (Qltb peak value) eqn:E.
      - apply Qltb_lt in E. split; [exact Hv|]. split; [apply Qle_refl|].
        intros Hlt. exfalso. exact (Qlt_irrefl _ (Qlt_trans _ _ _ E Hlt)).
      - apply Qltb_ge in E. split; [exact Hpeak|]. split; [exact E | reflexivity]. }
    destruct Hbounds as (Hpos & Hge & Hsame).
    rewrite pydiv_ok in Hrun
      by (intros Hz; rewrite Hz in Hpos; exact (Qlt_irrefl 0 Hpos)).
    cbn [mbind result_bind] in Hrun.
    set (drawdown := (peak' - value) / peak' * 100) in *.
    set (max_dd' := if Qltb max_dd drawdown then drawdown else max_dd) in *.
    assert (Hmax : 0 <= max_dd' /\ drawdown <= max_dd').
    { unfold max_dd'. destruct (Qltb max_dd drawdown) eqn:E.
      - apply Qltb_lt in E. split; [|apply Qle_refl].
        apply Qlt_le_weak. eapply Qle_lt_trans; eassumption.
      - apply Qltb_ge in E. split; assumption. }
    destruct Hmax as [Hmax0 Hmaxd].
    destruct Hcase as [Hlow | Hdesc].
    + assert (Hd : 0 < drawdown).
      { unfold drawdown. apply drawdown_ratio_bounds; [exact Hpos | exact Hv |].
        rewrite (Hsame Hlow). exact Hlow. }
      apply Qlt_le_trans with max_dd';
        [eapply Qlt_le_trans; eassumption|].
      eapply drawdown_loop_lower_bound. exact Hrun.
    + destruct rest as [|w rest']; [destruct Hdesc|].
      eapply IH; [exact Hpos | exact Hrest | exact Hmax0 | exact Hrun |].
      destruct Hdesc as [Hwv | Hdesc]; [left | right; exact Hdesc].
      eapply Qlt_le_trans; eassumption.
Qed.

Lemma running_peak_prefix (done more : list Q) (i : nat) (p : Q) :
  (i < length done)%nat ->
  running_peak (done ++ more) i p <-> running_peak done i p.
Proof.
  intros Hi. unfold running_peak. rewrite take_app_le by lia. reflexivity.
Qed.

Lemma drawdown_pct_peak (p q value : Q) :
  p == q -> drawdown_pct p value == drawdown_pct q value.
Proof. intros H. unfold drawdown_pct. rewrite H. reflexivity. Qed.

(** The loop keeps the largest percentage met so far, each taken against
    the highest valuation up to its point. *)
Lemma drawdown_loop_largest (values : list Q) :
  forall (done : list Q) (peak max_dd d : Q),
    Forall (fun x => x <= peak) done ->
    (In peak done \/ exists rest, values = peak :: rest) ->
    (forall i v p, done !! i = Some v -> running_peak done i p ->
                   drawdown_pct p v <= max_dd) ->
    (max_dd = 0 \/
     exists i v p, done !! i = Some v /\ running_peak done i p /\
                   max_dd = drawdown_pct p v) ->
    drawdown_loop peak max_dd values = Ok d ->
    (forall i v p, (done ++ values) !! i = Some v ->
                   running_peak (done ++ values) i p ->
                   drawdown_pct p v <= d) /\
    (d = 0 \/
     exists i v p, (done ++ values) !! i = Some v /\
                   running_peak (done ++ values) i p /\
                   d = drawdown_pct p v).
Proof.
  induction values as [|value rest IH];
    intros done peak max_dd d Hdone Hpeak Hbound Hmet Hrun.
  - injection Hrun as <-. rewrite app_nil_r. split; assumption.
  - cbn [drawdown_loop] in Hrun.
    set (peak' := if Qltb peak value then value else peak) in *.
    destruct (pydiv (peak' - value) peak') as [ratio|e] eqn:Hdiv; [|discriminate].
    cbn [mbind result_bind] in Hrun.
    apply pydiv_inv in Hdiv. destruct Hdiv as [_ ->].
    change ((peak' - value) / peak' * 100) with (drawdown_pct peak' value) in Hrun.
    set (max_dd' := if Qltb max_dd (drawdown_pct peak' value)
                    then drawdown_pct peak' value else max_dd) in *.
    assert (Hp' : peak <= peak' /\ value <= peak' /\ (peak' = peak \/ peak' = value)).
    { unfold peak'. destruct (Qltb peak value) eqn:E.
      - apply Qltb_lt in E. split; [apply Qlt_le_weak; exact E|].
        split; [apply Qle_refl | right; reflexivity].
      - apply Qltb_ge in E. split; [apply Qle_refl|].
        split; [exact E | left; reflexivity]. }
    destruct Hp' as (Hpp & Hvp & Hwhich).
    assert (Hm' : max_dd <= max_dd' /\ drawdown_pct peak' value <= max_dd' /\
                  (max_dd' = max_dd \/ max_dd' = drawdown_pct peak' value)).
    { unfold max_dd'. destruct (Qltb max_dd (drawdown_pct peak' value)) eqn:E.
      - apply Qltb_lt in E. split; [apply Qlt_le_weak; exact E|].
        split; [apply Qle_refl | right; reflexivity].
      - apply Qltb_ge in E. split; [apply Qle_refl|].
        split; [exact E | left; reflexivity]. }
    destruct Hm' as (Hmm & Hdm & Hwhich').
    assert (Hall' : Forall (fun x => x <= peak') (done ++ [value])).
    { apply Forall_app. split; [|constructor; [exact Hvp | constructor]].
      eapply Forall_impl; [exact Hdone|]. intros x Hx. cbv beta in Hx |- *.
      apply Qle_trans with peak; [exact Hx | exact Hpp]. }
    assert (Hin' : In peak' (done ++ [value])).
    { apply in_or_app. destruct Hwhich as [-> | ->]; [|right; left; reflexivity].
      destruct Hpeak as [Hin | [rest' Heq]]; [left; exact Hin|].
      injection Heq as -> _. right. left. reflexivity. }
    assert (Hnew : running_peak (done ++ [value]) (length done) peak').
    { unfold running_peak. rewrite take_ge by (rewrite length_app; simpl; lia).
      split; assumption. }
    replace (done ++ value :: rest) with ((done ++ [value]) ++ rest)
      by (rewrite <- app_assoc; reflexivity).
    apply (IH (done ++ [value]) peak' max_dd' d Hall' (or_introl Hin')); [| |exact Hrun].
    + intros i v p Hv Hp.
      destruct (Nat.lt_ge_cases i (length done)) as [Hi|Hi].
      * rewrite lookup_app_l in Hv by exact Hi.
        apply running_peak_prefix in Hp; [|exact Hi].
        eapply Qle_trans; [apply (Hbound i v p Hv Hp) | exact Hmm].
      * assert (i = length done).
        { apply lookup_lt_Some in Hv. rewrite length_app in Hv. simpl in Hv. lia. }
        subst i. rewrite list_lookup_middle in Hv by reflexivity.
        injection Hv as <-.
        assert (Hpq : p == peak').
        { destruct Hp as [Hpin Hpall]. destruct Hnew as [Hqin Hqall].
          rewrite Forall_forall in Hpall, Hqall.
          apply Qle_antisym.
          - apply Hqall. apply list_elem_of_In. exact Hpin.
          - apply Hpall. apply list_elem_of_In. exact Hqin. }
        rewrite (drawdown_pct_peak p peak' value Hpq). exact Hdm.
    + destruct Hwhich' as [Hsame | Hnewmax].
      * rewrite Hsame. destruct Hmet as [Hz | (i & v & p & Hv & Hp & Heq)];
          [left; exact Hz | right].
        exists i, v, p. pose proof (lookup_lt_Some _ _ _ Hv) as Hi.
        split; [rewrite lookup_app_l by exact Hi; exact Hv|].
        split; [apply running_peak_prefix; assumption | exact Heq].
      * right. exists (length done), value, peak'.
        split; [apply list_lookup_middle; reflexivity|].
        split; [exact Hnew | exact Hnewmax].
Qed.

End PositiveCurve.

(** X20.  For an equity curve of positive valuations the maximum drawdown
    is at most [100]; it is [0] exactly when the curve never falls; and it
    is the largest of the percentages [(peak - value) / peak * 100] that
    the loop computes, [peak] being the highest valuation up to the point
    of [value]: it bounds every one of them and, on a non-empty curve, is
    one of them. *)
Theorem drawdown_of_a_positive_curve (portfolio_value : list Q) (d : Q) :
  Forall (fun v => 0 < v) portfolio_value ->
  Backtest._calculate_max_drawdown portfolio_value = Ok d ->
  d <= 100 /\
  (d == 0 <-> nondecreasing portfolio_value) /\
  (forall (i : nat) (value peak : Q),
      portfolio_value !! i = Some value ->
      running_peak portfolio_value i peak ->
      drawdown_pct peak value <= d) /\
  (portfolio_value <> [] ->
   exists (i : nat) (value peak : Q),
     portfolio_value !! i = Some value /\
     running_peak portfolio_value i peak /\
     d == drawdown_pct peak value).
Proof.
  intros Hall Hd. destruct portfolio_value as [|first rest].
  { injection Hd as <-. split; [discriminate|].
    split; [split; [intros _; exact I | reflexivity]|].
    split; [intros i v p Hv; discriminate | congruence]. }
  unfold Backtest._calculate_max_drawdown in Hd.
  pose proof (proj1 (Forall_cons_1 _ _ _ Hall)) as Hfirst.
  split.
  { apply Qlt_le_weak.
    apply (drawdown_loop_below_100 (first :: rest) first 0 d Hfirst Hall);
      [reflexivity | exact Hd]. }
  split.
  { split.
    - intros Hzero.
      destruct (nondecreasing_or_descent (first :: rest)) as [Hmono|Hdesc]; [exact Hmono|].
      exfalso.
      assert (Hpos : 0 < d).
      { apply (drawdown_loop_descent (first :: rest) first 0 d Hfirst Hall
                 (Qle_refl 0) Hd). right. exact Hdesc. }
      rewrite Hzero in Hpos. exact (Qlt_irrefl 0 Hpos).
    - intros Hmono.
      apply (drawdown_loop_flat (first :: rest) first 0 d (Qeq_refl 0)
               (Qle_refl first) Hmono Hd). }
  destruct (drawdown_loop_largest (first :: rest) [] first 0 d) as [Hbound Hmet].
  - constructor.
  - right. exists rest. reflexivity.
  - intros i v p Hv. discriminate.
  - left. reflexivity.
  - exact Hd.
  - split; [exact Hbound|]. intros _.
    destruct Hmet as [-> | (i & v & p & Hv & Hp & ->)].
    + exists 0%nat, first, first. split; [reflexivity|]. split.
      * split; [left; reflexivity | repeat constructor; apply Qle_refl].
      * unfold drawdown_pct. field.
        intros Hz. rewrite Hz in Hfirst. exact (Qlt_irrefl 0 Hfirst).
    + exists i, v, p. split; [exact Hv|]. split; [exact Hp | reflexivity].
Qed.

Lemma drawdown_of_a_positive_curve_witness :
  (3000 # 120) <= 100 /\
  ((3000 # 120) == 0 <-> nondecreasing [100; 120; 90; 130]) /\
  (forall (i : nat) (value peak : Q),
      [100; 120; 90; 130] !! i = Some value ->
      running_peak [100; 120; 90; 130] i peak ->
      drawdown_pct peak value <= 3000 # 120) /\
  ([100; 120; 90; 130] <> [] ->
   exists (i : nat) (value peak : Q),
     [100; 120; 90; 130] !! i = Some value /\
     running_peak [100; 120; 90; 130] i peak /\
     (3000 # 120) == drawdown_pct peak value).
Proof.
  apply (drawdown_of_a_positive_curve [100; 120; 90; 130] (3000 # 120)).
  - repeat constructor.
  - vm_compute. reflexivity.
Defined.

